(** * GCRS2ITRS: the MEX gateway converting GCRS state vectors to the ITRS

    A shallow embedding of [mexFunction] of
    [Coordinate Systems/Celestial and Terrestrial Systems/GCRS2ITRS.c].

    - A C [double] is an IEEE-754 binary64 number: Rocq's primitive [float].
    - A MATLAB array ([mxArray]) is a record of its class, its two
      dimensions and its column-major data.
    - The routines the gateway calls but does not define (SOFA, the
      helpers of MexValidation.h, the MATLAB function getEOP) are the
      fields of one record, [Externals], that the gateway is given.
    - [mexErrMsgTxt] ends the call; [mexWarnMsgTxt] and the calls to the
      time-scale, Earth-orientation and astronomical routines are recorded
      in a log, in the order in which the gateway performs them. *)

From Stdlib Require Import ZArith Lia List Floats String Bool.
From stdpp Require Import base list.
Import ListNotations.

Abbreviation double := float.

(** ** Vectors and matrices of the SOFA interface: [double[3]], [double[3][3]] *)

Definition vec3 : Type := double * double * double.
Definition mat3 : Type := vec3 * vec3 * vec3.

Definition vec_get (v : vec3) (j : nat) : double :=
  let '(a, b, c) := v in
  match j with 0 => a | 1 => b | _ => c end.

Definition mat_get (r : mat3) (i j : nat) : double :=
  let '(r0, r1, r2) := r in
  vec_get (match i with 0 => r0 | 1 => r1 | _ => r2 end) j.

(** [double rident[3][3]={{1,0,0},{0,1,0},{0,0,1}}] *)
Definition rident : mat3 :=
  ((1, 0, 0), (0, 1, 0), (0, 0, 1))%float.

(** ** MATLAB arrays *)

Record mxArray : Type := MxArray {
  mxIsRealDouble : bool;        (* class double, not complex *)
  mxGetM : nat;                 (* number of rows *)
  mxGetN : nat;                 (* number of columns *)
  mxGetData : list double       (* column-major *)
}.

Definition mxIsEmpty (a : mxArray) : bool :=
  (mxGetM a =? 0) || (mxGetN a =? 0).

(** [mxCreateDoubleMatrix(m,n,mxREAL)]: zero-initialised. *)
Definition mxCreateDoubleMatrix (m n : nat) : mxArray :=
  MxArray true m n (replicate (m * n) 0%float).

(** [doubleMat2Matlab(&d,1,1)] *)
Definition mxScalar (d : double) : mxArray := MxArray true 1 1 [d].

(** An array holds exactly as many values as its dimensions say. *)
Definition mx_wf (a : mxArray) : Prop :=
  length (mxGetData a) = mxGetM a * mxGetN a.

(** ** The log of a call and the error monad of the gateway *)

Inductive Callee : Type :=
| TTTAI        (* iauTttai:  TT -> TAI *)
| TAIUTC       (* iauTaiutc: TAI -> UTC *)
| GETEOP       (* mexCallMATLAB(...,"getEOP") *)
| TTUT1        (* iauTtut1:  TT -> UT1 *)
| XYS06A       (* iauXys06a: CIP coordinates and CIO locator *)
| C2IXYS       (* iauC2ixys: GCRS-to-CIRS matrix *)
| ERA00        (* iauEra00:  Earth rotation angle *)
| SP00         (* iauSp00:   TIO locator *)
| POM00        (* iauPom00:  polar-motion matrix *)
| C2TCIO       (* iauC2tcio: celestial-to-terrestrial matrix *)
| CLASSCONST.  (* getScalarMatlabClassConst *)

Inductive Event : Type :=
| Call (c : Callee)
| Warn (msg : string).

(** The conversions between time scales. *)
Definition is_timescale (e : Event) : bool :=
  match e with
  | Call TTTAI | Call TAIUTC | Call TTUT1 => true
  | _ => false
  end.

(** The conversions TT -> TAI -> UTC and the look-up they serve. *)
Definition is_lookup (e : Event) : bool :=
  match e with
  | Call TTTAI | Call TAIUTC | Call GETEOP => true
  | _ => false
  end.

(** The astronomical models and matrices. *)
Definition is_astro (e : Event) : bool :=
  match e with
  | Call XYS06A | Call C2IXYS | Call ERA00 | Call SP00
  | Call POM00 | Call C2TCIO => true
  | _ => false
  end.

Definition is_warning (e : Event) : bool :=
  match e with Warn _ => true | Call _ => false end.

(** A computation of the gateway: the events so far, and either the
    message of the [mexErrMsgTxt] that ended the call or a value. *)
Definition Mex (A : Type) : Type := list Event * (string + A).

Definition ret {A} (a : A) : Mex A := ([], inr a).

Definition bind {A B} (m : Mex A) (k : A -> Mex B) : Mex B :=
  match m with
  | (l, inl e) => (l, inl e)
  | (l, inr a) => let '(l', r) := k a in (l ++ l', r)
  end.

Definition mexErrMsgTxt {A} (msg : string) : Mex A := ([], inl msg).
Definition mexWarnMsgTxt (msg : string) : Mex unit := ([Warn msg], inr tt).
Definition called (c : Callee) : Mex unit := ([Call c], inr tt).

(** A helper that either returns or ends the call with its own message. *)
Definition lift {A} (r : string + A) : Mex A := ([], r).

(** [if(c) mexErrMsgTxt(msg);] *)
Definition failwhen (c : bool) (msg : string) : Mex unit :=
  if c then mexErrMsgTxt msg else ret tt.

Declare Scope mex_scope.
Delimit Scope mex_scope with mex.
Notation "x <- m ;; k" := (bind m (fun x => k))
  (at level 100, m at next level, right associativity) : mex_scope.
Notation "m ;;; k" := (bind m (fun _ => k))
  (at level 100, right associativity) : mex_scope.

Definition events {A} (m : Mex A) : list Event := fst m.
Definition outcome {A} (m : Mex A) : string + A := snd m.

(** ** The routines the gateway is linked against *)

(** The five outputs of [mexCallMATLAB(5,retVals,2,JulUTCMATLAB,"getEOP")]. *)
Record EOPReply : Type := {
  retVals0 : mxArray;   (* xpyp *)
  retVals1 : mxArray;   (* dXdY *)
  retVals2 : mxArray;
  retVals3 : mxArray;   (* TT-UT1 *)
  retVals4 : mxArray    (* LOD *)
}.

Record Externals : Type := {
  (* MexValidation.h: [None] when the check passes, else the message of
     the error that ends the call *)
  checkRealDoubleArray : mxArray -> option string;
  getDoubleFromMatlab : mxArray -> string + double;
  getScalarMatlabClassConst : string -> string -> string + double;
  (* MATLAB: the function getEOP, or the error that ends the call *)
  getEOP : mxArray -> mxArray -> string + EOPReply;
  (* SOFA, time scales: the returned status and the two-part date *)
  iauTttai : double -> double -> Z * (double * double);
  iauTaiutc : double -> double -> Z * (double * double);
  iauTtut1 : double -> double -> double -> double * double;
  (* SOFA, astronomy *)
  iauXys06a : double -> double -> double * double * double;
  iauC2ixys : double -> double -> double -> mat3;
  iauEra00 : double -> double -> double;
  iauSp00 : double -> double -> double;
  iauPom00 : double -> double -> double -> mat3;
  iauC2tcio : mat3 -> double -> mat3 -> mat3;
  (* SOFA, vectors: r*p, a x b, a - b; each may be called in place *)
  iauRxp : mat3 -> vec3 -> vec3;
  iauPxp : vec3 -> vec3 -> vec3;
  iauPmp : vec3 -> vec3 -> vec3
}.

(** ** Error and warning messages of the gateway *)

Definition msg_inputs : string := "Wrong number of inputs".
Definition msg_outputs : string := "Wrong number of outputs.".
Definition msg_bad_dim : string := "The input vector has a bad dimensionality.".
Definition msg_tai : string := "An error occurred computing TAI.".
Definition msg_dubious : string := "Dubious Date entered.".
Definition msg_unacceptable : string := "Unacceptable date entered".
Definition msg_getEOP : string := "Error using the getEOP function.".
Definition msg_pole_offsets : string :=
  "The celestial pole offsets have the wrong dimensionality.".
Definition msg_polar_motion : string :=
  "The polar motion coordinates have the wrong dimensionality.".

(** ** The Earth orientation parameters: the locals [xp,yp,dX,dY,deltaT,LOD] *)

Record EOP : Type := {
  xp : double; yp : double;
  dX : double; dY : double;
  deltaT : double;
  LOD : double
}.

(** [double dX=0; double dY=0; double xp=0; ...] *)
Definition eop_init : EOP :=
  {| xp := 0; yp := 0; dX := 0; dY := 0; deltaT := 0; LOD := 0 |}%float.

(** ** The rotation bundle: [GCRS2ITRS], [GCRS2TIRS], [rpom], [Omega] *)

Record Bundle : Type := {
  GCRS2ITRS : mat3;
  GCRS2TIRS : mat3;
  rpom : mat3;
  Omega : vec3
}.

(** ** Memory: three doubles read from, or written to, an offset *)

Definition load3 (mem : list double) (off : nat) : vec3 :=
  (nth off mem 0%float, nth (off + 1) mem 0%float, nth (off + 2) mem 0%float).

Definition store3 (off : nat) (v : vec3) (mem : list double) : list double :=
  let '(a, b, c) := v in
  <[off + 2 := c]> (<[off + 1 := b]> (<[off := a]> mem)).

Section Gateway.

Variable E : Externals.

Local Open Scope mex_scope.

(** [prhs[i]] *)
Definition arg (prhs : list mxArray) (i : nat) : mxArray :=
  nth i prhs (MxArray false 0 0 []).

(** [checkRealDoubleArray(a);] *)
Definition check_real_double (a : mxArray) : Mex unit :=
  match checkRealDoubleArray E a with
  | Some msg => mexErrMsgTxt msg
  | None => ret tt
  end.

(** The condition of line 137: some value of getEOP will be needed. *)
Definition needs_lookup (prhs : list mxArray) : bool :=
  (length prhs <=? 6) || mxIsEmpty (arg prhs 3) || mxIsEmpty (arg prhs 4)
  || mxIsEmpty (arg prhs 5) || mxIsEmpty (arg prhs 6).

(** Lines 146-160: TT -> TAI -> UTC. *)
Definition utc_of_tt (TT1 TT2 : double) : Mex (double * double) :=
  let '(retVal, (tai1, tai2)) := iauTttai E TT1 TT2 in
  called TTTAI ;;;
  failwhen (negb (retVal =? 0)%Z) msg_tai ;;;
  let '(retVal, JulUTC) := iauTaiutc E tai1 tai2 in
  called TAIUTC ;;;
  match retVal with
  | 1%Z => mexWarnMsgTxt msg_dubious
  | (-1)%Z => mexErrMsgTxt msg_unacceptable
  | _ => ret tt
  end ;;;
  ret JulUTC.

(** Lines 162-197: the Earth orientation parameters of getEOP. *)
Definition eop_of_utc (JulUTC : double * double) : Mex EOP :=
  called GETEOP ;;;
  retVals <- lift (getEOP E (mxScalar (fst JulUTC)) (mxScalar (snd JulUTC))) ;;
  check_real_double (retVals0 retVals) ;;;
  check_real_double (retVals1 retVals) ;;;
  failwhen (negb (mxGetM (retVals0 retVals) =? 2)
            || negb (mxGetN (retVals0 retVals) =? 1)
            || negb (mxGetM (retVals1 retVals) =? 2)
            || negb (mxGetN (retVals1 retVals) =? 1)) msg_getEOP ;;;
  let xpyp := mxGetData (retVals0 retVals) in
  let dXdY := mxGetData (retVals1 retVals) in
  deltaT <- lift (getDoubleFromMatlab E (retVals3 retVals)) ;;
  LOD <- lift (getDoubleFromMatlab E (retVals4 retVals)) ;;
  ret {| xp := nth 0 xpyp 0%float; yp := nth 1 xpyp 0%float;
         dX := nth 0 dXdY 0%float; dY := nth 1 dXdY 0%float;
         deltaT := deltaT; LOD := LOD |}.

(** Lines 137-198. *)
Definition lookupEOP (prhs : list mxArray) (TT1 TT2 : double) : Mex EOP :=
  if needs_lookup prhs then
    JulUTC <- utc_of_tt TT1 TT2 ;;
    eop_of_utc JulUTC
  else ret eop_init.

(** [nrhs>i&&!mxIsEmpty(prhs[i])] *)
Definition given (prhs : list mxArray) (i : nat) : bool :=
  (i <? length prhs) && negb (mxIsEmpty (arg prhs i)).

(** [(dim1==2&&dim2==1)||(dim1==1&&dim2==2)] *)
Definition is_pair (a : mxArray) : bool :=
  ((mxGetM a =? 2) && (mxGetN a =? 1)) || ((mxGetM a =? 1) && (mxGetN a =? 2)).

(** Lines 201-203. *)
Definition override_deltaT (prhs : list mxArray) (eop : EOP) : Mex EOP :=
  if given prhs 3 then
    d <- lift (getDoubleFromMatlab E (arg prhs 3)) ;;
    ret {| xp := xp eop; yp := yp eop; dX := dX eop; dY := dY eop;
           deltaT := d; LOD := LOD eop |}
  else ret eop.

(** Lines 209-225. *)
Definition override_xpyp (prhs : list mxArray) (eop : EOP) : Mex EOP :=
  if given prhs 4 then
    check_real_double (arg prhs 4) ;;;
    if is_pair (arg prhs 4) then
      let xpyp := mxGetData (arg prhs 4) in
      ret {| xp := nth 0 xpyp 0%float; yp := nth 1 xpyp 0%float;
             dX := dX eop; dY := dY eop;
             deltaT := deltaT eop; LOD := LOD eop |}
    else mexErrMsgTxt msg_pole_offsets
  else ret eop.

(** Lines 227-243. *)
Definition override_dXdY (prhs : list mxArray) (eop : EOP) : Mex EOP :=
  if given prhs 5 then
    check_real_double (arg prhs 5) ;;;
    if is_pair (arg prhs 5) then
      let dXdY := mxGetData (arg prhs 5) in
      ret {| xp := xp eop; yp := yp eop;
             dX := nth 0 dXdY 0%float; dY := nth 1 dXdY 0%float;
             deltaT := deltaT eop; LOD := LOD eop |}
    else mexErrMsgTxt msg_polar_motion
  else ret eop.

(** Lines 246-248. *)
Definition override_LOD (prhs : list mxArray) (eop : EOP) : Mex EOP :=
  if given prhs 6 then
    l <- lift (getDoubleFromMatlab E (arg prhs 6)) ;;
    ret {| xp := xp eop; yp := yp eop; dX := dX eop; dY := dY eop;
           deltaT := deltaT eop; LOD := l |}
  else ret eop.

(** Lines 253-303: the rotation matrices and the angular velocity. *)
Definition compose (TT1 TT2 UT11 UT12 : double) (eop : EOP) : Mex Bundle :=
  called XYS06A ;;;
  let '(x, y, s) := iauXys06a E TT1 TT2 in
  let x := (x + dX eop)%float in
  let y := (y + dY eop)%float in
  called C2IXYS ;;;
  let rc2i := iauC2ixys E x y s in
  called ERA00 ;;;
  let era := iauEra00 E UT11 UT12 in
  called SP00 ;;;
  let sp := iauSp00 E TT1 TT2 in
  called POM00 ;;;
  let rpom := iauPom00 E (xp eop) (yp eop) sp in
  called C2TCIO ;;;
  let GCRS2ITRS := iauC2tcio E rc2i era rpom in
  called C2TCIO ;;;
  let GCRS2TIRS := iauC2tcio E rc2i era rident in
  called CLASSCONST ;;;
  omega <- lift (getScalarMatlabClassConst E "Constants" "IERSMeanEarthRotationRate") ;;
  let omega := (omega * (1 - LOD eop / 86400.0))%float in
  ret {| GCRS2ITRS := GCRS2ITRS; GCRS2TIRS := GCRS2TIRS; rpom := rpom;
         Omega := (0%float, 0%float, omega) |}.

(** Lines 312-342: the body of the loop, for the vector [curVec]. *)
Definition transform_vec (B : Bundle) (numRow : nat) (xVec : list double)
    (retData : list double) (curVec : nat) : list double :=
  let off := numRow * curVec in
  let retData := store3 off (iauRxp E (GCRS2ITRS B) (load3 xVec off)) retData in
  if 3 <? numRow then
    let posGCRS := load3 xVec off in
    let velGCRS := load3 xVec (off + 3) in
    let velTIRS := iauRxp E (GCRS2TIRS B) velGCRS in
    let posTIRS := iauRxp E (GCRS2TIRS B) posGCRS in
    let rotVel := iauPxp E (Omega B) posTIRS in
    let retData := store3 (off + 3) (iauPmp E velTIRS rotVel) retData in
    store3 (off + 3) (iauRxp E (rpom B) (load3 retData (off + 3))) retData
  else retData.

(** Lines 306-344: [for(curVec=0;curVec<numVec;curVec++)]. *)
Definition transform (B : Bundle) (numRow numVec : nat) (xVec : list double)
    : mxArray :=
  let retMat := mxCreateDoubleMatrix numRow numVec in
  MxArray true numRow numVec
    (fold_left (transform_vec B numRow xVec) (seq 0 numVec) (mxGetData retMat)).

(** Lines 352-359: [elPtr[i+3*j]=GCRS2ITRS[i][j]]. *)
Definition rotMat (R : mat3) : mxArray :=
  let elPtr := mxGetData (mxCreateDoubleMatrix 3 3) in
  MxArray true 3 3
    (fold_left (fun elPtr i =>
       fold_left (fun elPtr j => <[i + 3 * j := mat_get R i j]> elPtr)
                 (seq 0 3) elPtr)
     (seq 0 3) elPtr).

(** Lines 115-134: argument counts, the batch, the two parts of the date. *)
Definition prologue (nlhs : nat) (prhs : list mxArray)
    : Mex (double * double) :=
  let nrhs := length prhs in
  failwhen ((nrhs <? 3) || (7 <? nrhs)) msg_inputs ;;;
  failwhen (2 <? nlhs) msg_outputs ;;;
  check_real_double (arg prhs 0) ;;;
  let numRow := mxGetM (arg prhs 0) in
  failwhen (negb ((numRow =? 3) || (numRow =? 6))) msg_bad_dim ;;;
  TT1 <- lift (getDoubleFromMatlab E (arg prhs 1)) ;;
  TT2 <- lift (getDoubleFromMatlab E (arg prhs 2)) ;;
  ret (TT1, TT2).

(** Lines 137-206: the parameters of getEOP, the caller's TT-UT1, and the
    UT1 date. *)
Definition resolve_ut1 (prhs : list mxArray) (TT1 TT2 : double)
    : Mex (double * double * EOP) :=
  eop <- lookupEOP prhs TT1 TT2 ;;
  eop <- override_deltaT prhs eop ;;
  called TTUT1 ;;;
  ret (iauTtut1 E TT1 TT2 (deltaT eop), eop).

(** Lines 137-248: all the parameters, those of the caller over those of
    getEOP. *)
Definition resolve (prhs : list mxArray) (TT1 TT2 : double)
    : Mex (double * double * EOP) :=
  r <- resolve_ut1 prhs TT1 TT2 ;;
  eop <- override_xpyp prhs (snd r) ;;
  eop <- override_dXdY prhs eop ;;
  eop <- override_LOD prhs eop ;;
  ret (fst r, eop).

(** Lines 115-303: everything up to the rotation bundle. *)
Definition bundle_of (nlhs : nat) (prhs : list mxArray) : Mex Bundle :=
  TT <- prologue nlhs prhs ;;
  r <- resolve prhs (fst TT) (snd TT) ;;
  compose (fst TT) (snd TT) (fst (fst r)) (snd (fst r)) (snd r).

(** Lines 306-360: the outputs [plhs]. *)
Definition outputs (nlhs : nat) (prhs : list mxArray) (B : Bundle)
    : list mxArray :=
  let x := arg prhs 0 in
  let retMat := transform B (mxGetM x) (mxGetN x) (mxGetData x) in
  if 1 <? nlhs then [retMat; rotMat (GCRS2ITRS B)] else [retMat].

(** The gateway: [nrhs] is the length of [prhs]; the result is [plhs]. *)
Definition mexFunction (nlhs : nat) (prhs : list mxArray)
    : Mex (list mxArray) :=
  B <- bundle_of nlhs prhs ;;
  ret (outputs nlhs prhs B).

End Gateway.

(** ** A test bench: stand-ins for the linked routines

    The vector routines follow SOFA's definitions on doubles; the
    time-scale and astronomical routines are simple stand-ins, getEOP
    answers with a fixed reply, and the status that [iauTaiutc] returns is
    chosen by the test. *)

Module Bench.

Local Open Scope float_scope.

(** SOFA's [iauRxp]: [w = 0.0; for (i...) w += r[j][i]*p[i];] *)
Definition rxp (r : mat3) (p : vec3) : vec3 :=
  let row j := 0 + mat_get r j 0 * vec_get p 0 + mat_get r j 1 * vec_get p 1
               + mat_get r j 2 * vec_get p 2 in
  (row 0%nat, row 1%nat, row 2%nat).

(** SOFA's [iauPxp]. *)
Definition pxp (a b : vec3) : vec3 :=
  let '(xa, ya, za) := a in
  let '(xb, yb, zb) := b in
  (ya * zb - za * yb, za * xb - xa * zb, xa * yb - ya * xb).

(** SOFA's [iauPmp]. *)
Definition pmp (a b : vec3) : vec3 :=
  let '(xa, ya, za) := a in
  let '(xb, yb, zb) := b in
  (xa - xb, ya - yb, za - zb).

(** A stand-in for [iauC2tcio]: the product [rpom * rc2i], no rotation. *)
Definition c2tcio (rc2i : mat3) (era : double) (rpom : mat3) : mat3 :=
  let col j := (mat_get rc2i 0 j, mat_get rc2i 1 j, mat_get rc2i 2 j) in
  let '(c0, c1, c2) := (rxp rpom (col 0%nat), rxp rpom (col 1%nat), rxp rpom (col 2%nat)) in
  ((vec_get c0 0, vec_get c1 0, vec_get c2 0),
   (vec_get c0 1, vec_get c1 1, vec_get c2 1),
   (vec_get c0 2, vec_get c1 2, vec_get c2 2)).

Definition check (a : mxArray) : option string :=
  if mxIsRealDouble a then None
  else Some "A parameter that should be a real double is not."%string.

Definition scalar (a : mxArray) : string + double :=
  match mxIsRealDouble a, mxGetData a with
  | true, [d] => inr d
  | _, _ => inl "A scalar value was expected."%string
  end.

Definition reply : EOPReply :=
  {| retVals0 := MxArray true 2 1 [0.5; 0.25];
     retVals1 := MxArray true 2 1 [0.125; 2];
     retVals2 := mxScalar 0;
     retVals3 := mxScalar 64;
     retVals4 := mxScalar 43200 |}.

(** [status]: what [iauTaiutc] returns. *)
Definition externals (status : Z) : Externals :=
  {| checkRealDoubleArray := check;
     getDoubleFromMatlab := scalar;
     getScalarMatlabClassConst := fun _ _ => inr 4;
     getEOP := fun _ _ => inr reply;
     iauTttai := fun t1 t2 => (0%Z, (t1, t2 - 0.5));
     iauTaiutc := fun t1 t2 => (status, (t1, t2 - 0.25));
     iauTtut1 := fun t1 t2 dt => (t1, t2 - dt / 86400);
     iauXys06a := fun _ _ => (0.5, 0.25, 0);
     iauC2ixys := fun x y s => ((0, 1, 0), (0 - 1, 0, 0), (x, y, 1));
     iauEra00 := fun u1 u2 => u1 + u2;
     iauSp00 := fun _ _ => 0;
     iauPom00 := fun xp yp sp => ((1, 0, xp), (0, 1, 0 - yp), (0, 0, 1));
     iauC2tcio := c2tcio;
     iauRxp := rxp;
     iauPxp := pxp;
     iauPmp := pmp |}.

Definition x3 : mxArray := MxArray true 3 2 [1; 2; 3; 4; 5; 6].
Definition x6 : mxArray :=
  MxArray true 6 2 [1; 2; 3; 4; 5; 6; 7; 8; 9; 10; 11; 12].
Definition x4 : mxArray := MxArray true 4 1 [1; 2; 3; 4].
Definition Jul1 : mxArray := mxScalar 2400000.5.
Definition Jul2 : mxArray := mxScalar 54195.5.
Definition deltaTTUT1 : mxArray := mxScalar 64.
Definition xpyp : mxArray := MxArray true 2 1 [0.5; 0.25].
Definition dXdY : mxArray := MxArray true 1 2 [0.125; 2].
Definition LOD0 : mxArray := mxScalar 0.
Definition LOD1 : mxArray := mxScalar 43200.
Definition three : mxArray := MxArray true 3 1 [0.5; 0.25; 0.125].

(** Argument lists of test calls. *)
Definition prhs3 : list mxArray := [x3; Jul1; Jul2].
Definition prhs3_vel : list mxArray := [x6; Jul1; Jul2].
Definition prhs7 : list mxArray :=
  [x3; Jul1; Jul2; deltaTTUT1; xpyp; dXdY; LOD1].
Definition prhs7_lod0 : list mxArray :=
  [x3; Jul1; Jul2; deltaTTUT1; xpyp; dXdY; LOD0].
Definition prhs7_vel_lod0 : list mxArray :=
  [x6; Jul1; Jul2; deltaTTUT1; xpyp; dXdY; LOD0].
Definition prhs7_three : list mxArray :=
  [x3; Jul1; Jul2; deltaTTUT1; three; dXdY; LOD1].
Definition prhs5_three : list mxArray :=
  [x3; Jul1; Jul2; deltaTTUT1; three].
Definition prhs7_dXdY_three : list mxArray :=
  [x3; Jul1; Jul2; deltaTTUT1; xpyp; three; LOD1].

End Bench.

(** ** The transformation of one vector, in the words of the specification *)

Definition list_of_vec3 (v : vec3) : list double :=
  let '(a, b, c) := v in [a; b; c].

(** The vector [i] of a batch of [numRow]-row vectors stored column-major. *)
Definition column (numRow : nat) (data : list double) (i : nat) : list double :=
  take numRow (drop (numRow * i) data).

(** The position is rotated by GCRS2ITRS.  When a velocity follows it,
    position and velocity are rotated into the TIRS by GCRS2TIRS, the
    rotational contribution Omega x posTIRS is subtracted from the
    velocity, and the difference is rotated by the polar-motion matrix. *)
Definition itrs_position (E : Externals) (B : Bundle) (pos : vec3) : vec3 :=
  iauRxp E (GCRS2ITRS B) pos.

Definition itrs_velocity (E : Externals) (B : Bundle) (pos vel : vec3) : vec3 :=
  let posTIRS := iauRxp E (GCRS2TIRS B) pos in
  let velTIRS := iauRxp E (GCRS2TIRS B) vel in
  let rotVel := iauPxp E (Omega B) posTIRS in
  let velTIRS_corrected := iauPmp E velTIRS rotVel in
  iauRxp E (rpom B) velTIRS_corrected.

Definition itrs_column (E : Externals) (B : Bundle) (c : list double)
    : list double :=
  list_of_vec3 (itrs_position E B (load3 c 0))
  ++ (if 3 <? length c
      then list_of_vec3 (itrs_velocity E B (load3 c 0) (load3 c 3))
      else []).

(** ** The same routines, with a TAI-to-UTC conversion that raises no flag *)

Definition undisputed (E : Externals) : Externals :=
  {| checkRealDoubleArray := checkRealDoubleArray E;
     getDoubleFromMatlab := getDoubleFromMatlab E;
     getScalarMatlabClassConst := getScalarMatlabClassConst E;
     getEOP := getEOP E;
     iauTttai := iauTttai E;
     iauTaiutc := fun t1 t2 => (0%Z, snd (iauTaiutc E t1 t2));
     iauTtut1 := iauTtut1 E;
     iauXys06a := iauXys06a E;
     iauC2ixys := iauC2ixys E;
     iauEra00 := iauEra00 E;
     iauSp00 := iauSp00 E;
     iauPom00 := iauPom00 E;
     iauC2tcio := iauC2tcio E;
     iauRxp := iauRxp E;
     iauPxp := iauPxp E;
     iauPmp := iauPmp E |}.

(** ** The call as one sequence of steps *)

(** What lines 253-303 log. *)
Definition compose_events : list Event :=
  [Call XYS06A; Call C2IXYS; Call ERA00; Call SP00; Call POM00;
   Call C2TCIO; Call C2TCIO; Call CLASSCONST].

(** Lines 201-360, once the parameters of getEOP (or their initial values)
    are in [eop0]. *)
Definition after_lookup (E : Externals) (nlhs : nat) (prhs : list mxArray)
    (TT1 TT2 : double) (eop0 : EOP) : Mex (list mxArray) :=
  bind (override_deltaT E prhs eop0) (fun e1 =>
  bind (called TTUT1) (fun _ =>
  bind (override_xpyp E prhs e1) (fun e2 =>
  bind (override_dXdY E prhs e2) (fun e3 =>
  bind (override_LOD E prhs e3) (fun e4 =>
  let UT := iauTtut1 E TT1 TT2 (deltaT e1) in
  bind (compose E TT1 TT2 (fst UT) (snd UT) e4) (fun B =>
  ret (outputs E nlhs prhs B))))))).

(** ** Further test cases *)

Module Cases.

Local Open Scope float_scope.

(** The routines of [Bench.externals 0], with another TT-to-TAI status. *)
Definition tai_status (status : Z) : Externals :=
  {| checkRealDoubleArray := Bench.check;
     getDoubleFromMatlab := Bench.scalar;
     getScalarMatlabClassConst := fun _ _ => inr 4;
     getEOP := fun _ _ => inr Bench.reply;
     iauTttai := fun t1 t2 => (status, (t1, t2 - 0.5));
     iauTaiutc := fun t1 t2 => (0%Z, (t1, t2 - 0.25));
     iauTtut1 := iauTtut1 (Bench.externals 0);
     iauXys06a := iauXys06a (Bench.externals 0);
     iauC2ixys := iauC2ixys (Bench.externals 0);
     iauEra00 := iauEra00 (Bench.externals 0);
     iauSp00 := iauSp00 (Bench.externals 0);
     iauPom00 := iauPom00 (Bench.externals 0);
     iauC2tcio := Bench.c2tcio;
     iauRxp := Bench.rxp;
     iauPxp := Bench.pxp;
     iauPmp := Bench.pmp |}.

(** The routines of [Bench.externals 0], with another reply of getEOP. *)
Definition eop_reply (reply : EOPReply) : Externals :=
  {| checkRealDoubleArray := Bench.check;
     getDoubleFromMatlab := Bench.scalar;
     getScalarMatlabClassConst := fun _ _ => inr 4;
     getEOP := fun _ _ => inr reply;
     iauTttai := iauTttai (Bench.externals 0);
     iauTaiutc := iauTaiutc (Bench.externals 0);
     iauTtut1 := iauTtut1 (Bench.externals 0);
     iauXys06a := iauXys06a (Bench.externals 0);
     iauC2ixys := iauC2ixys (Bench.externals 0);
     iauEra00 := iauEra00 (Bench.externals 0);
     iauSp00 := iauSp00 (Bench.externals 0);
     iauPom00 := iauPom00 (Bench.externals 0);
     iauC2tcio := Bench.c2tcio;
     iauRxp := Bench.rxp;
     iauPxp := Bench.pxp;
     iauPmp := Bench.pmp |}.

(** A reply of getEOP whose polar motion is a row, not a column. *)
Definition row_reply : EOPReply :=
  {| retVals0 := MxArray true 1 2 [0.5; 0.25];
     retVals1 := MxArray true 2 1 [0.125; 2];
     retVals2 := mxScalar 0;
     retVals3 := mxScalar 64;
     retVals4 := mxScalar 43200 |}.

(** [[]], a batch without vectors, and the polar motion as a row. *)
Definition none : mxArray := MxArray true 0 0 [].
Definition x0 : mxArray := MxArray true 3 0 [].
Definition xpyp_row : mxArray := MxArray true 1 2 [0.5; 0.25].
Definition xpyp_other : mxArray := MxArray true 2 1 [3; 5].

(** The positions of [Bench.x6]. *)
Definition x3_of_x6 : mxArray := MxArray true 3 2 [1; 2; 3; 7; 8; 9].

End Cases.

(** * Properties *)

(** ** The monad *)

Section MexLemmas.

Context {A B : Type}.

Lemma bind_inr (m : Mex A) (k : A -> Mex B) l a :
  m = (l, inr a) -> bind m k = (l ++ events (k a), outcome (k a)).
Proof. intros ->. unfold bind, events, outcome. now destruct (k a). Qed.

Lemma bind_inl (m : Mex A) (k : A -> Mex B) l e :
  m = (l, inl e) -> bind m k = (l, inl e).
Proof. now intros ->. Qed.

Lemma bind_ret_l (a : A) (k : A -> Mex B) : bind (ret a) k = k a.
Proof. unfold bind, ret. now destruct (k a). Qed.

Lemma bind_inv_inr (m : Mex A) (k : A -> Mex B) l b :
  bind m k = (l, inr b) ->
  exists l1 a l2, m = (l1, inr a) /\ k a = (l2, inr b) /\ l = l1 ++ l2.
Proof.
  destruct m as [l1 [e | a]]; cbn; [discriminate |].
  destruct (k a) as [l2 r] eqn:Hk. intros [= <- ->]. now exists l1, a, l2.
Qed.

Lemma events_bind_Forall (P : Event -> Prop) (m : Mex A) (k : A -> Mex B) :
  Forall P (events m) -> (forall a, Forall P (events (k a))) ->
  Forall P (events (bind m k)).
Proof.
  destruct m as [l [e | a]]; cbn; intros Hm Hk; [exact Hm |].
  specialize (Hk a). destruct (k a) as [l' r]. cbn in *.
  apply Forall_app; now split.
Qed.

End MexLemmas.

Lemma surjective_mex {A} (m : Mex A) : m = (events m, outcome m).
Proof. now destruct m. Qed.

(** ** Memory *)

Lemma nth_insert_ne (l : list double) i j x d :
  i <> j -> nth j (<[i:=x]> l) d = nth j l d.
Proof. intros H. now rewrite !nth_lookup, list_lookup_insert_ne. Qed.

Lemma nth_insert_eq (l : list double) i x d :
  i < length l -> nth i (<[i:=x]> l) d = x.
Proof. intros H. now rewrite nth_lookup, list_lookup_insert_eq. Qed.

Lemma length_store3 off v mem : length (store3 off v mem) = length mem.
Proof. destruct v as [[a b] c]. unfold store3. now rewrite !length_insert. Qed.

Lemma nth_store3_out off v mem j d :
  j < off \/ off + 3 <= j -> nth j (store3 off v mem) d = nth j mem d.
Proof.
  intros H. destruct v as [[a b] c]. unfold store3.
  rewrite !nth_insert_ne by lia. reflexivity.
Qed.

Lemma load3_store3 off v mem :
  off + 3 <= length mem -> load3 (store3 off v mem) off = v.
Proof.
  intros H. destruct v as [[a b] c]. unfold store3, load3.
  rewrite (nth_insert_ne _ (off + 2) off), (nth_insert_ne _ (off + 1) off) by lia.
  rewrite (nth_insert_ne _ (off + 2) (off + 1)) by lia.
  rewrite !nth_insert_eq; rewrite ?length_insert; try lia. reflexivity.
Qed.

Lemma load3_store3_out off off' v mem :
  off' + 3 <= off \/ off + 3 <= off' ->
  load3 (store3 off v mem) off' = load3 mem off'.
Proof.
  intros H. unfold load3. rewrite !nth_store3_out by lia. reflexivity.
Qed.

Lemma take3_drop (l : list double) off :
  off + 3 <= length l -> take 3 (drop off l) = list_of_vec3 (load3 l off).
Proof.
  revert l. induction off as [| off IH]; intros l H.
  - destruct l as [| a [| b [| c l]]]; cbn in H; try lia. reflexivity.
  - destruct l as [| a l]; cbn in H; [lia |].
    cbn [drop]. rewrite IH by lia. reflexivity.
Qed.

Lemma take6_drop (l : list double) off :
  off + 6 <= length l ->
  take 6 (drop off l)
  = list_of_vec3 (load3 l off) ++ list_of_vec3 (load3 l (off + 3)).
Proof.
  revert l. induction off as [| off IH]; intros l H.
  - destruct l as [| a [| b [| c [| d [| e [| f l]]]]]]; cbn in H; try lia.
    reflexivity.
  - destruct l as [| a l]; cbn in H; [lia |].
    cbn [drop]. rewrite IH by lia. reflexivity.
Qed.

Lemma nth_column numRow (l : list double) i j d :
  j < numRow -> nth j (column numRow l i) d = nth (numRow * i + j) l d.
Proof.
  intros H. unfold column.
  now rewrite !nth_lookup, lookup_take_lt, lookup_drop by lia.
Qed.

Lemma length_column numRow (l : list double) i :
  numRow * i + numRow <= length l -> length (column numRow l i) = numRow.
Proof.
  intros H. unfold column. rewrite length_take, length_drop. lia.
Qed.

(** ** The loop over the vectors of the batch *)

Section Loop.

Variable E : Externals.
Variable B : Bundle.
Variable xVec : list double.

Lemma length_transform_vec numRow mem k :
  length (transform_vec E B numRow xVec mem k) = length mem.
Proof.
  unfold transform_vec. destruct (3 <? numRow); now rewrite !length_store3.
Qed.

Lemma nth_transform_vec_out numRow mem k j d :
  numRow = 3 \/ numRow = 6 ->
  j < numRow * k \/ numRow * k + numRow <= j ->
  nth j (transform_vec E B numRow xVec mem k) d = nth j mem d.
Proof.
  intros [-> | ->] H; unfold transform_vec; cbn [Nat.ltb Nat.leb];
    rewrite !nth_store3_out by lia; reflexivity.
Qed.

Lemma transform_vec_pos numRow mem k :
  numRow = 3 \/ numRow = 6 ->
  numRow * k + numRow <= length mem ->
  load3 (transform_vec E B numRow xVec mem k) (numRow * k)
  = itrs_position E B (load3 xVec (numRow * k)).
Proof.
  intros [-> | ->] H; unfold transform_vec, itrs_position; cbn [Nat.ltb Nat.leb].
  - apply load3_store3. lia.
  - rewrite !load3_store3_out by lia. apply load3_store3. lia.
Qed.

Lemma transform_vec_vel mem k :
  6 * k + 6 <= length mem ->
  load3 (transform_vec E B 6 xVec mem k) (6 * k + 3)
  = itrs_velocity E B (load3 xVec (6 * k)) (load3 xVec (6 * k + 3)).
Proof.
  intros H. unfold transform_vec, itrs_velocity. cbn [Nat.ltb Nat.leb].
  rewrite !load3_store3; rewrite ?length_store3; try lia. reflexivity.
Qed.

Lemma transform_fold numRow n : forall mem,
  numRow = 3 \/ numRow = 6 ->
  numRow * n <= length mem ->
  let out := fold_left (transform_vec E B numRow xVec) (seq 0 n) mem in
  length out = length mem /\
  forall i, i < n ->
    load3 out (numRow * i) = itrs_position E B (load3 xVec (numRow * i)) /\
    (numRow = 6 ->
     load3 out (6 * i + 3)
     = itrs_velocity E B (load3 xVec (6 * i)) (load3 xVec (6 * i + 3))).
Proof.
  induction n as [| n IH]; intros mem Hrow Hlen; cbn zeta.
  - split; [reflexivity | intros i Hi; lia].
  - rewrite seq_S, fold_left_app. cbn [fold_left Nat.add].
    destruct (IH mem Hrow ltac:(lia)) as [Hl Hi].
    set (prev := fold_left _ (seq 0 n) mem) in *.
    split; [now rewrite length_transform_vec |].
    intros i Hlt. destruct (Nat.eq_dec i n) as [-> | Hne].
    + split.
      * apply transform_vec_pos; [assumption | lia].
      * intros ->. apply transform_vec_vel. lia.
    + destruct (Hi i ltac:(lia)) as [Hp Hv]. split.
      * rewrite <- Hp. unfold load3.
        rewrite !(nth_transform_vec_out numRow) by (assumption || nia).
        reflexivity.
      * intros ->. rewrite <- (Hv eq_refl). unfold load3.
        rewrite !(nth_transform_vec_out 6) by (auto || lia).
        reflexivity.
Qed.

(** What the loop leaves in the output array, vector by vector. *)
Lemma transform_spec numRow numVec :
  numRow = 3 \/ numRow = 6 ->
  let out := transform E B numRow numVec xVec in
  mxGetM out = numRow /\ mxGetN out = numVec /\ mx_wf out /\
  forall i, i < numVec ->
    load3 (mxGetData out) (numRow * i)
    = itrs_position E B (load3 xVec (numRow * i)) /\
    (numRow = 6 ->
     load3 (mxGetData out) (6 * i + 3)
     = itrs_velocity E B (load3 xVec (6 * i)) (load3 xVec (6 * i + 3))).
Proof.
  intros Hrow. cbn zeta. unfold transform, mx_wf. cbn [mxGetM mxGetN mxGetData].
  destruct (transform_fold numRow numVec
              (mxGetData (mxCreateDoubleMatrix numRow numVec)) Hrow) as [Hl Hi].
  { cbn. now rewrite length_replicate. }
  repeat split; try (intros; now apply Hi).
  rewrite Hl. cbn. apply length_replicate.
Qed.

(** Each output vector is a function of the bundle and of its own input
    vector. *)
Lemma transform_column numRow numVec i :
  numRow = 3 \/ numRow = 6 ->
  length xVec = numRow * numVec -> i < numVec ->
  column numRow (mxGetData (transform E B numRow numVec xVec)) i
  = itrs_column E B (column numRow xVec i).
Proof.
  intros Hrow Hx Hi.
  destruct (transform_spec numRow numVec Hrow) as (HM & HN & Hwf & Hvec).
  unfold mx_wf in Hwf. rewrite HM, HN in Hwf.
  destruct (Hvec i Hi) as [Hp Hv].
  unfold itrs_column. rewrite length_column by nia.
  assert (H0 : load3 (column numRow xVec i) 0 = load3 xVec (numRow * i)).
  { unfold load3. rewrite !nth_column by lia.
    now rewrite Nat.add_0_r. }
  destruct Hrow as [-> | ->]; cbn [Nat.ltb Nat.leb].
  - unfold column at 1. rewrite take3_drop by lia.
    rewrite Hp, H0, app_nil_r. reflexivity.
  - assert (H3 : load3 (column 6 xVec i) 3 = load3 xVec (6 * i + 3)).
    { unfold load3. rewrite !nth_column by lia.
      now rewrite <- !Nat.add_assoc. }
    unfold column at 1. rewrite take6_drop by lia.
    rewrite Hp, (Hv eq_refl), H0, H3. reflexivity.
Qed.

End Loop.

(** ** The stages of the gateway *)

Section Stages.

Variable E : Externals.

Lemma mexFunction_inr nlhs prhs l B :
  bundle_of E nlhs prhs = (l, inr B) ->
  mexFunction E nlhs prhs = (l, inr (outputs E nlhs prhs B)).
Proof.
  intros H. unfold mexFunction. rewrite (bind_inr _ _ _ _ H). cbn.
  now rewrite app_nil_r.
Qed.

Lemma mexFunction_inl nlhs prhs l e :
  bundle_of E nlhs prhs = (l, inl e) ->
  mexFunction E nlhs prhs = (l, inl e).
Proof. intros H. unfold mexFunction. now rewrite (bind_inl _ _ _ _ H). Qed.

Lemma mexFunction_inv nlhs prhs l plhs :
  mexFunction E nlhs prhs = (l, inr plhs) ->
  exists B, bundle_of E nlhs prhs = (l, inr B) /\ plhs = outputs E nlhs prhs B.
Proof.
  intros H. apply bind_inv_inr in H as (l1 & B & l2 & HB & Hret & ->).
  injection Hret as <- <-. exists B. now rewrite app_nil_r.
Qed.

Lemma arg_outputs_0 nlhs prhs B :
  arg (outputs E nlhs prhs B) 0
  = transform E B (mxGetM (arg prhs 0)) (mxGetN (arg prhs 0))
      (mxGetData (arg prhs 0)).
Proof. unfold outputs. now destruct (1 <? nlhs). Qed.

Lemma arg_outputs_1 nlhs prhs B :
  1 < nlhs -> arg (outputs E nlhs prhs B) 1 = rotMat (GCRS2ITRS B).
Proof.
  intros H. unfold outputs. apply Nat.ltb_lt in H. now rewrite H.
Qed.

(** The prologue evaluates no model; when it passes, the counts of the
    arguments and the batch are valid and the date has been read. *)
Lemma events_prologue nlhs prhs : events (prologue E nlhs prhs) = [].
Proof.
  unfold prologue, failwhen, check_real_double, lift, mexErrMsgTxt, ret, bind.
  repeat case_match; simplify_eq; reflexivity.
Qed.

Lemma prologue_inv nlhs prhs l TT :
  prologue E nlhs prhs = (l, inr TT) ->
  l = [] /\ 3 <= length prhs <= 7 /\ nlhs <= 2 /\
  checkRealDoubleArray E (arg prhs 0) = None /\
  (mxGetM (arg prhs 0) = 3 \/ mxGetM (arg prhs 0) = 6) /\
  getDoubleFromMatlab E (arg prhs 1) = inr (fst TT) /\
  getDoubleFromMatlab E (arg prhs 2) = inr (snd TT).
Proof.
  unfold prologue, failwhen, check_real_double, lift, mexErrMsgTxt, ret, bind.
  intros H. repeat case_match; simplify_eq. cbn.
  repeat match goal with
         | H : (_ || _) = false |- _ => apply orb_false_elim in H as [? ?]
         | H : negb _ = false |- _ => apply negb_false_iff in H
         | H : (_ || _) = true |- _ => apply orb_prop in H
         | H : (_ <? _) = false |- _ => apply Nat.ltb_ge in H
         end.
  repeat split; try lia; try assumption.
  rewrite !Nat.eqb_eq in *. assumption.
Qed.

Lemma prologue_intro nlhs prhs TT1 TT2 :
  3 <= length prhs <= 7 -> nlhs <= 2 ->
  checkRealDoubleArray E (arg prhs 0) = None ->
  mxGetM (arg prhs 0) = 3 \/ mxGetM (arg prhs 0) = 6 ->
  getDoubleFromMatlab E (arg prhs 1) = inr TT1 ->
  getDoubleFromMatlab E (arg prhs 2) = inr TT2 ->
  prologue E nlhs prhs = ([], inr (TT1, TT2)).
Proof.
  intros Hn Hl Hc Hrow H1 H2. unfold prologue, check_real_double.
  replace ((length prhs <? 3) || (7 <? length prhs)) with false
    by (symmetry; apply orb_false_intro; apply Nat.ltb_ge; lia).
  replace (2 <? nlhs) with false by (symmetry; apply Nat.ltb_ge; lia).
  replace (negb ((mxGetM (arg prhs 0) =? 3) || (mxGetM (arg prhs 0) =? 6)))
    with false by (destruct Hrow as [-> | ->]; reflexivity).
  rewrite Hc, H1, H2. reflexivity.
Qed.

Lemma bundle_of_inv nlhs prhs l B :
  bundle_of E nlhs prhs = (l, inr B) ->
  exists TT1 TT2 l1 UT eop l2,
    prologue E nlhs prhs = ([], inr (TT1, TT2)) /\
    resolve E prhs TT1 TT2 = (l1, inr (UT, eop)) /\
    compose E TT1 TT2 (fst UT) (snd UT) eop = (l2, inr B) /\
    l = l1 ++ l2.
Proof.
  intros H. apply bind_inv_inr in H as (l0 & [TT1 TT2] & l' & Hp & H & ->).
  apply bind_inv_inr in H as (l1 & [UT eop] & l2 & Hr & Hc & ->).
  destruct (prologue_inv _ _ _ _ Hp) as [-> _].
  exists TT1, TT2, l1, UT, eop, l2. auto.
Qed.

Lemma bundle_of_rows nlhs prhs l B :
  bundle_of E nlhs prhs = (l, inr B) ->
  mxGetM (arg prhs 0) = 3 \/ mxGetM (arg prhs 0) = 6.
Proof.
  intros H. apply bundle_of_inv in H as (TT1 & TT2 & l1 & UT & eop & l2 & Hp & _).
  now apply prologue_inv in Hp.
Qed.

End Stages.

(** ** The vector transformer *)

(** C1: in a batch of 6-row vectors, the velocity of each output vector is
    obtained in four steps: position and velocity are rotated into the TIRS
    by GCRS2TIRS, the cross product of Omega and the TIRS position is
    formed, it is subtracted from the TIRS velocity, and the difference is
    rotated by the polar-motion matrix; the output position is GCRS2ITRS
    applied to the input position. *)
Theorem C1_velocity_by_transport E nlhs prhs l B i :
  bundle_of E nlhs prhs = (l, inr B) ->
  mxGetM (arg prhs 0) = 6 ->
  i < mxGetN (arg prhs 0) ->
  exists plhs,
    mexFunction E nlhs prhs = (l, inr plhs) /\
    let xVec := mxGetData (arg prhs 0) in
    let retData := mxGetData (arg plhs 0) in
    let posGCRS := load3 xVec (6 * i) in
    let velGCRS := load3 xVec (6 * i + 3) in
    let posTIRS := iauRxp E (GCRS2TIRS B) posGCRS in
    let velTIRS := iauRxp E (GCRS2TIRS B) velGCRS in
    let rotVel := iauPxp E (Omega B) posTIRS in
    let corrected := iauPmp E velTIRS rotVel in
    load3 retData (6 * i + 3) = iauRxp E (rpom B) corrected /\
    load3 retData (6 * i) = iauRxp E (GCRS2ITRS B) posGCRS.
Proof.
  intros HB Hrow Hi. exists (outputs E nlhs prhs B).
  split; [now apply mexFunction_inr |]. cbn zeta.
  rewrite arg_outputs_0, Hrow.
  destruct (transform_spec E B (mxGetData (arg prhs 0)) 6 (mxGetN (arg prhs 0)))
    as (_ & _ & _ & Hvec); [now right |].
  destruct (Hvec i Hi) as [Hp Hv]. split; [apply (Hv eq_refl) | apply Hp].
Qed.

Lemma C1_velocity_by_transport_witness :
  exists plhs,
    mexFunction (Bench.externals 0) 1 Bench.prhs3_vel
    = ([Call TTTAI; Call TAIUTC; Call GETEOP; Call TTUT1; Call XYS06A;
        Call C2IXYS; Call ERA00; Call SP00; Call POM00; Call C2TCIO;
        Call C2TCIO; Call CLASSCONST], inr plhs) /\
    load3 (mxGetData (arg plhs 0)) 9 = (18.5, -36.75, 43)%float.
Proof.
  destruct (C1_velocity_by_transport (Bench.externals 0) 1
              Bench.prhs3_vel _ _ 1
              ltac:(vm_compute; reflexivity) eq_refl ltac:(cbn; lia))
    as (plhs & Hrun & Hvel & _).
  exists plhs. split; [exact Hrun |].
  etransitivity; [exact Hvel |]. vm_compute. reflexivity.
Defined.

(** C2: for a valid batch, the output has the dimensions of the input,
    its vector [i] is a function of the rotation bundle and of the input
    vector [i] alone (so the order of the batch is kept), a position-only
    output vector is GCRS2ITRS applied to its input vector, and equal input
    vectors give equal output vectors. *)
Theorem C2_batch_vector_by_vector E nlhs prhs l B :
  bundle_of E nlhs prhs = (l, inr B) ->
  mx_wf (arg prhs 0) ->
  exists plhs,
    mexFunction E nlhs prhs = (l, inr plhs) /\
    let x := arg prhs 0 in
    let y := arg plhs 0 in
    let numRow := mxGetM x in
    (mxGetM y = mxGetM x /\ mxGetN y = mxGetN x /\ mx_wf y) /\
    (forall i, i < mxGetN x ->
       column numRow (mxGetData y) i
       = itrs_column E B (column numRow (mxGetData x) i)) /\
    (numRow = 3 -> forall i, i < mxGetN x ->
       column 3 (mxGetData y) i
       = list_of_vec3 (iauRxp E (GCRS2ITRS B) (load3 (mxGetData x) (3 * i)))) /\
    (forall i j, i < mxGetN x -> j < mxGetN x ->
       column numRow (mxGetData x) i = column numRow (mxGetData x) j ->
       column numRow (mxGetData y) i = column numRow (mxGetData y) j).
Proof.
  intros HB Hwf. exists (outputs E nlhs prhs B).
  split; [now apply mexFunction_inr |]. cbn zeta.
  rewrite arg_outputs_0.
  pose proof (bundle_of_rows _ _ _ _ _ HB) as Hrow.
  set (x := arg prhs 0) in *.
  destruct (transform_spec E B (mxGetData x) (mxGetM x) (mxGetN x) Hrow)
    as (HM & HN & Hy & Hvec).
  assert (Hcol : forall i, i < mxGetN x ->
            column (mxGetM x)
              (mxGetData (transform E B (mxGetM x) (mxGetN x) (mxGetData x))) i
            = itrs_column E B (column (mxGetM x) (mxGetData x) i)).
  { intros i Hi. now apply transform_column. }
  repeat split; try assumption.
  - intros H3 i Hi. rewrite H3 in *.
    unfold column at 1. rewrite take3_drop.
    + now destruct (Hvec i Hi) as [-> _].
    + unfold mx_wf in Hy. rewrite Hy, HM, HN. lia.
  - intros i j Hi Hj Heq. now rewrite !Hcol, Heq.
Qed.

Lemma C2_batch_vector_by_vector_witness :
  exists plhs,
    outcome (mexFunction (Bench.externals 0) 1
               Bench.prhs3) = inr plhs /\
    mxGetM (arg plhs 0) = 3 /\ mxGetN (arg plhs 0) = 2 /\
    column 3 (mxGetData (arg plhs 0)) 1 = [14.875; -8.9375; 19.75]%float.
Proof.
  destruct (C2_batch_vector_by_vector (Bench.externals 0) 1
              Bench.prhs3 _ _
              ltac:(vm_compute; reflexivity) eq_refl)
    as (plhs & Hrun & (HM & HN & _) & _ & Hpos & _).
  exists plhs. rewrite Hrun. repeat split; try assumption.
  etransitivity; [exact (Hpos eq_refl 1 ltac:(cbn; lia)) |].
  vm_compute. reflexivity.
Defined.

(** ** Doubles *)

Local Open Scope float_scope.

Lemma shr_1_even (p : positive) :
  shr_1 {| shr_m := Zpos p~0; shr_r := false; shr_s := false |}
  = {| shr_m := Zpos p; shr_r := false; shr_s := false |}.
Proof. reflexivity. Qed.

Lemma digits2_pos_shift52 (m : positive) :
  Zpos (digits2_pos (Pos.iter xO m 52)) = (Zpos (digits2_pos m) + 52)%Z.
Proof. cbn [Pos.iter digits2_pos]. lia. Qed.

Lemma iter_shr_1_shift52 (m : positive) :
  SpecFloat.iter_pos shr_1 52
    {| shr_m := Zpos (Pos.iter xO m 52); shr_r := false; shr_s := false |}
  = {| shr_m := Zpos m; shr_r := false; shr_s := false |}.
Proof. cbn [SpecFloat.iter_pos Pos.iter]. rewrite !shr_1_even. reflexivity. Qed.

(** Multiplying a double by 1.0 is exact, for every double. *)
Lemma SF64mul_one_r (x : spec_float) :
  valid_binary x = true -> SF64mul x (Prim2SF 1) = x.
Proof.
  intros Hv.
  change (Prim2SF 1) with (S754_finite false 4503599627370496 (-52)).
  destruct x as [s | s | | s m e]; cbn [SF64mul SFmul];
    try (now destruct s); try reflexivity.
  cbn [valid_binary] in Hv. unfold bounded, canonical_mantissa in Hv.
  apply andb_prop in Hv as [Hc Hb]. apply Z.eqb_eq in Hc.
  replace (xorb s false) with s by now destruct s.
  rewrite Pos.mul_comm.
  change (4503599627370496 * m)%positive with (Pos.iter xO m 52).
  unfold binary_round_aux, shr_fexp at 1. cbn [Zdigits2].
  rewrite digits2_pos_shift52.
  replace (Zpos (digits2_pos m) + 52 + (e + -52))%Z
    with (Zpos (digits2_pos m) + e)%Z by lia.
  rewrite Hc. replace (e - (e + -52))%Z with 52%Z by lia.
  cbn [shr shr_record_of_loc]. rewrite iter_shr_1_shift52.
  cbn [shr_m loc_of_shr_record round_nearest_even].
  unfold shr_fexp. cbn [Zdigits2].
  replace (e + -52 + 52)%Z with e by lia.
  rewrite Hc, Z.sub_diag. cbn [shr shr_record_of_loc shr_m].
  now rewrite Hb.
Qed.

Lemma mul_one_r (x : double) : x * 1 = x.
Proof.
  apply Prim2SF_inj. rewrite mul_spec. apply SF64mul_one_r, Prim2SF_valid.
Qed.

(** The doubles that compare equal to zero are [0.0] and [-0.0]. *)
Lemma eqb_zero_inv (x : double) : (x =? 0) = true -> x = 0 \/ x = -0.
Proof.
  rewrite FloatAxioms.eqb_spec. intros H. rewrite <- (SF2Prim_Prim2SF x).
  destruct (Prim2SF x) as [[|] | [|] | | [|] m e]; try discriminate H; auto.
Qed.

Local Close Scope float_scope.

(** ** The rotation composer *)

Lemma compose_inv E TT1 TT2 UT11 UT12 eop l B :
  compose E TT1 TT2 UT11 UT12 eop = (l, inr B) ->
  exists omega,
    getScalarMatlabClassConst E "Constants" "IERSMeanEarthRotationRate"
    = inr omega /\
    l = compose_events /\
    Omega B = (0, 0, omega * (1 - LOD eop / 86400))%float /\
    rpom B = iauPom00 E (xp eop) (yp eop) (iauSp00 E TT1 TT2) /\
    GCRS2TIRS B
    = iauC2tcio E
        (let '(x, y, s) := iauXys06a E TT1 TT2 in
         iauC2ixys E (x + dX eop)%float (y + dY eop)%float s)
        (iauEra00 E UT11 UT12) rident /\
    GCRS2ITRS B
    = iauC2tcio E
        (let '(x, y, s) := iauXys06a E TT1 TT2 in
         iauC2ixys E (x + dX eop)%float (y + dY eop)%float s)
        (iauEra00 E UT11 UT12)
        (iauPom00 E (xp eop) (yp eop) (iauSp00 E TT1 TT2)).
Proof.
  unfold compose, called, lift, bind, ret.
  destruct (iauXys06a E TT1 TT2) as [[x y] s].
  destruct (getScalarMatlabClassConst E _ _) as [e | omega]; cbn;
    [discriminate |].
  intros [= <- <-]. exists omega. cbn. repeat split; reflexivity.
Qed.

(** C5: whenever the rotation bundle is built, Omega is [0, 0, omega] with
    omega the nominal mean rotation rate of the Earth times
    (1 - LOD/86400); when LOD is zero, omega is that nominal rate exactly. *)
Theorem C5_Omega_along_z E nlhs prhs l B :
  bundle_of E nlhs prhs = (l, inr B) ->
  exists TT1 TT2 l1 UT eop omega0,
    prologue E nlhs prhs = ([], inr (TT1, TT2)) /\
    resolve E prhs TT1 TT2 = (l1, inr (UT, eop)) /\
    getScalarMatlabClassConst E "Constants" "IERSMeanEarthRotationRate"
    = inr omega0 /\
    Omega B = (0, 0, omega0 * (1 - LOD eop / 86400.0))%float /\
    ((LOD eop =? 0)%float = true -> Omega B = (0%float, 0%float, omega0)).
Proof.
  intros H.
  apply bundle_of_inv in H as (TT1 & TT2 & l1 & UT & eop & l2 & Hp & Hr & Hc & _).
  apply compose_inv in Hc as (omega0 & Hw & _ & HO & _).
  exists TT1, TT2, l1, UT, eop, omega0. repeat split; try assumption.
  intros Hz. rewrite HO.
  apply eqb_zero_inv in Hz as [-> | ->];
    (replace (1 - _ / 86400)%float with 1%float by (vm_compute; reflexivity));
    now rewrite mul_one_r.
Qed.

Lemma C5_Omega_along_z_witness :
  exists B,
    outcome (bundle_of (Bench.externals 0) 1 Bench.prhs7_vel_lod0) = inr B /\
    exists omega0 : double,
      getScalarMatlabClassConst (Bench.externals 0)
        "Constants" "IERSMeanEarthRotationRate" = inr omega0 /\
      Omega B = (0, 0, omega0 * (1 - 0 / 86400.0))%float /\
      Omega B = (0%float, 0%float, omega0).
Proof.
  destruct (C5_Omega_along_z (Bench.externals 0) 1 Bench.prhs7_vel_lod0 _ _
              ltac:(vm_compute; reflexivity))
    as (TT1 & TT2 & l1 & UT & eop & omega0 & Hp & Hr & Hw & HO & Hz).
  eexists. split; [vm_compute; reflexivity |].
  exists omega0.
  vm_compute in Hp. injection Hp as <- <-.
  vm_compute in Hr. injection Hr as <- <- <-.
  repeat split; [exact Hw | exact HO | apply Hz; vm_compute; reflexivity].
Defined.

(** ** What the stages log, and when they end the call *)

Section MexOutcomes.

Context {A B : Type}.

Lemma outcome_bind_inl (m : Mex A) (k : A -> Mex B) :
  (forall a, exists e, outcome (k a) = inl e) ->
  exists e, outcome (bind m k) = inl e.
Proof.
  intros Hk. destruct m as [l [e | a]]; cbn; [now exists e |].
  destruct (Hk a) as [e He]. destruct (k a) as [l' r]. cbn in *. now exists e.
Qed.

End MexOutcomes.

(** Splits a goal on the events of a sequence of steps into one goal for
    each step, and settles the steps that log nothing or a single event. *)
Ltac step_events :=
  repeat first
    [ apply events_bind_Forall; [| intros ?]
    | match goal with
      | |- Forall _ (events (if ?c then _ else _)) => destruct c
      | |- Forall _ (events (match ?c with _ => _ end)) => destruct c
      | |- Forall _ (events (ret _)) => constructor
      | |- Forall _ (events (lift _)) => constructor
      | |- Forall _ (events (mexErrMsgTxt _)) => constructor
      | |- Forall _ (events (failwhen ?c _)) => destruct c; constructor
      | |- Forall _ (events (check_real_double _ _)) =>
          unfold check_real_double
      | |- Forall _ (events (called _)) =>
          repeat constructor; fail
      | |- Forall _ (events (mexWarnMsgTxt _)) =>
          repeat constructor; fail
      end ].

Section Resolution.

Variable E : Externals.

(** The overrides of the caller log nothing. *)
Lemma events_override_deltaT prhs eop :
  events (override_deltaT E prhs eop) = [].
Proof.
  unfold override_deltaT, lift, bind, ret. repeat case_match; reflexivity.
Qed.

Lemma events_override_xpyp prhs eop : events (override_xpyp E prhs eop) = [].
Proof.
  unfold override_xpyp, check_real_double, mexErrMsgTxt, bind, ret.
  repeat case_match; simplify_eq; reflexivity.
Qed.

Lemma events_override_dXdY prhs eop : events (override_dXdY E prhs eop) = [].
Proof.
  unfold override_dXdY, check_real_double, mexErrMsgTxt, bind, ret.
  repeat case_match; simplify_eq; reflexivity.
Qed.

Lemma events_override_LOD prhs eop : events (override_LOD E prhs eop) = [].
Proof.
  unfold override_LOD, lift, bind, ret. repeat case_match; reflexivity.
Qed.

(** A polar-motion argument that is given and is not a pair ends the call
    at line 222, unless [checkRealDoubleArray] has ended it at line 212. *)
Lemma override_xpyp_malformed prhs eop :
  given prhs 4 = true -> is_pair (arg prhs 4) = false ->
  override_xpyp E prhs eop
  = ([], inl (match checkRealDoubleArray E (arg prhs 4) with
              | Some msg => msg
              | None => msg_pole_offsets
              end)).
Proof.
  intros Hg Hp. unfold override_xpyp, check_real_double. rewrite Hg, Hp.
  now destruct (checkRealDoubleArray E (arg prhs 4)).
Qed.

Lemma override_dXdY_malformed prhs eop :
  given prhs 5 = true -> is_pair (arg prhs 5) = false ->
  override_dXdY E prhs eop
  = ([], inl (match checkRealDoubleArray E (arg prhs 5) with
              | Some msg => msg
              | None => msg_polar_motion
              end)).
Proof.
  intros Hg Hp. unfold override_dXdY, check_real_double. rewrite Hg, Hp.
  now destruct (checkRealDoubleArray E (arg prhs 5)).
Qed.

(** A polar-motion argument that is absent, empty or a pair passes. *)
Lemma override_xpyp_passes prhs eop :
  (given prhs 4 = true ->
   checkRealDoubleArray E (arg prhs 4) = None /\ is_pair (arg prhs 4) = true) ->
  exists eop', override_xpyp E prhs eop = ([], inr eop') /\
    dX eop' = dX eop /\ dY eop' = dY eop /\
    deltaT eop' = deltaT eop /\ LOD eop' = LOD eop.
Proof.
  intros H. unfold override_xpyp, check_real_double.
  destruct (given prhs 4).
  - destruct (H eq_refl) as [-> ->]. eexists. split; [reflexivity |]. now cbn.
  - exists eop. now split.
Qed.

(** The look-up and the overrides evaluate no astronomical model. *)
Lemma events_utc_of_tt_astro TT1 TT2 :
  Forall (fun e => is_astro e = false) (events (utc_of_tt E TT1 TT2)).
Proof.
  unfold utc_of_tt. destruct (iauTttai E TT1 TT2) as [retVal [tai1 tai2]].
  destruct (iauTaiutc E tai1 tai2) as [retVal' JulUTC].
  step_events; repeat constructor.
Qed.

Lemma events_lookupEOP_astro prhs TT1 TT2 :
  Forall (fun e => is_astro e = false) (events (lookupEOP E prhs TT1 TT2)).
Proof.
  unfold lookupEOP. destruct (needs_lookup prhs); [| constructor].
  apply events_bind_Forall; [apply events_utc_of_tt_astro |].
  intros JulUTC. unfold eop_of_utc. step_events; repeat constructor.
Qed.

Lemma events_resolve_ut1_astro prhs TT1 TT2 :
  Forall (fun e => is_astro e = false) (events (resolve_ut1 E prhs TT1 TT2)).
Proof.
  unfold resolve_ut1.
  apply events_bind_Forall; [apply events_lookupEOP_astro |]. intros eop.
  apply events_bind_Forall;
    [rewrite events_override_deltaT; constructor |].
  intros eop'. step_events; repeat constructor.
Qed.

Lemma events_resolve_astro prhs TT1 TT2 :
  Forall (fun e => is_astro e = false) (events (resolve E prhs TT1 TT2)).
Proof.
  unfold resolve.
  apply events_bind_Forall; [apply events_resolve_ut1_astro |]. intros r.
  apply events_bind_Forall; [rewrite events_override_xpyp; constructor |].
  intros e1.
  apply events_bind_Forall; [rewrite events_override_dXdY; constructor |].
  intros e2.
  apply events_bind_Forall; [rewrite events_override_LOD; constructor |].
  intros e3. constructor.
Qed.

(** The UT1 date is the last thing lines 137-206 compute. *)
Lemma resolve_ut1_inv prhs TT1 TT2 l r :
  resolve_ut1 E prhs TT1 TT2 = (l, inr r) ->
  exists l0 eop0,
    lookupEOP E prhs TT1 TT2 = (l0, inr eop0) /\
    override_deltaT E prhs eop0 = ([], inr (snd r)) /\
    fst r = iauTtut1 E TT1 TT2 (deltaT (snd r)) /\
    l = l0 ++ [Call TTUT1].
Proof.
  intros H. apply bind_inv_inr in H as (l0 & eop0 & l' & Hl & H & ->).
  apply bind_inv_inr in H as (l1 & eop1 & l'' & Hd & H & ->).
  pose proof (events_override_deltaT prhs eop0) as Hev.
  rewrite Hd in Hev. cbn in Hev. subst l1.
  cbn in H. injection H as <- <-.
  exists l0, eop0. now cbn.
Qed.

(** When the polar-motion argument is malformed, the resolution of the
    parameters ends the call. *)
Lemma resolve_xpyp_malformed prhs TT1 TT2 :
  given prhs 4 = true -> is_pair (arg prhs 4) = false ->
  exists e, outcome (resolve E prhs TT1 TT2) = inl e.
Proof.
  intros Hg Hp. unfold resolve. apply outcome_bind_inl. intros r.
  rewrite (bind_inl _ _ _ _ (override_xpyp_malformed prhs (snd r) Hg Hp)).
  eauto.
Qed.

Lemma resolve_xpyp_malformed_at prhs TT1 TT2 l r :
  resolve_ut1 E prhs TT1 TT2 = (l, inr r) ->
  given prhs 4 = true -> is_pair (arg prhs 4) = false ->
  checkRealDoubleArray E (arg prhs 4) = None ->
  resolve E prhs TT1 TT2 = (l, inl msg_pole_offsets).
Proof.
  intros Hr Hg Hp Hc. unfold resolve. rewrite (bind_inr _ _ _ _ Hr).
  rewrite (bind_inl _ _ _ _ (override_xpyp_malformed prhs (snd r) Hg Hp)).
  cbn. now rewrite Hc, app_nil_r.
Qed.

Lemma resolve_dXdY_malformed_at prhs TT1 TT2 l r :
  resolve_ut1 E prhs TT1 TT2 = (l, inr r) ->
  (given prhs 4 = true ->
   checkRealDoubleArray E (arg prhs 4) = None /\ is_pair (arg prhs 4) = true) ->
  given prhs 5 = true -> is_pair (arg prhs 5) = false ->
  checkRealDoubleArray E (arg prhs 5) = None ->
  resolve E prhs TT1 TT2 = (l, inl msg_polar_motion).
Proof.
  intros Hr H4 Hg Hp Hc. unfold resolve. rewrite (bind_inr _ _ _ _ Hr).
  destruct (override_xpyp_passes prhs (snd r) H4) as (eop' & Hx & _).
  rewrite (bind_inr _ _ _ _ Hx).
  rewrite (bind_inl _ _ _ _ (override_dXdY_malformed prhs eop' Hg Hp)).
  cbn. now rewrite Hc, app_nil_r.
Qed.

(** An error of the prologue or of the resolution is the error of the call,
    and nothing is logged after it. *)
Lemma bundle_of_resolve_inl nlhs prhs TT1 TT2 l e :
  prologue E nlhs prhs = ([], inr (TT1, TT2)) ->
  resolve E prhs TT1 TT2 = (l, inl e) ->
  mexFunction E nlhs prhs = (l, inl e).
Proof.
  intros Hp Hr. apply mexFunction_inl. unfold bundle_of.
  rewrite (bind_inr _ _ _ _ Hp). cbn [fst snd].
  now rewrite (bind_inl _ _ _ _ Hr).
Qed.

Lemma mexFunction_xpyp_malformed nlhs prhs :
  given prhs 4 = true -> is_pair (arg prhs 4) = false ->
  (exists e, outcome (mexFunction E nlhs prhs) = inl e) /\
  Forall (fun e => is_astro e = false) (events (mexFunction E nlhs prhs)).
Proof.
  intros Hg Hp.
  destruct (prologue E nlhs prhs) as [l0 [e | [TT1 TT2]]] eqn:Hpro.
  - pose proof (events_prologue E nlhs prhs) as Hev. rewrite Hpro in Hev.
    cbn in Hev. subst l0.
    assert (Hb : bundle_of E nlhs prhs = ([], inl e))
      by (unfold bundle_of; now rewrite Hpro).
    rewrite (mexFunction_inl _ _ _ _ _ Hb). cbn. split; [eauto | constructor].
  - pose proof (events_prologue E nlhs prhs) as Hev. rewrite Hpro in Hev.
    cbn in Hev. subst l0.
    destruct (resolve_xpyp_malformed prhs TT1 TT2 Hg Hp) as [e He].
    pose proof (events_resolve_astro prhs TT1 TT2) as Hastro.
    destruct (resolve E prhs TT1 TT2) as [l r] eqn:Hr. cbn in He, Hastro.
    subst r. rewrite (bundle_of_resolve_inl _ _ _ _ _ _ Hpro Hr). cbn.
    split; [eauto | exact Hastro].
Qed.

End Resolution.

(** ** Validation *)

Lemma prologue_bad_rows E nlhs prhs :
  mxGetM (arg prhs 0) <> 3 -> mxGetM (arg prhs 0) <> 6 ->
  exists msg, mexFunction E nlhs prhs = ([], inl msg).
Proof.
  intros H3 H6.
  destruct (prologue E nlhs prhs) as [l0 [e | TT]] eqn:Hpro.
  - pose proof (events_prologue E nlhs prhs) as Hev. rewrite Hpro in Hev.
    cbn in Hev. subst l0. exists e. apply mexFunction_inl.
    unfold bundle_of. now rewrite Hpro.
  - apply prologue_inv in Hpro as (_ & _ & _ & _ & [H | H] & _); contradiction.
Qed.

Lemma prologue_bad_rows_msg E nlhs prhs :
  mxGetM (arg prhs 0) <> 3 -> mxGetM (arg prhs 0) <> 6 ->
  3 <= length prhs <= 7 -> nlhs <= 2 ->
  checkRealDoubleArray E (arg prhs 0) = None ->
  mexFunction E nlhs prhs = ([], inl msg_bad_dim).
Proof.
  intros H3 H6 Hn Hl Hc. apply mexFunction_inl.
  unfold bundle_of, prologue, check_real_double.
  replace ((length prhs <? 3) || (7 <? length prhs)) with false
    by (symmetry; apply orb_false_intro; apply Nat.ltb_ge; lia).
  replace (2 <? nlhs) with false by (symmetry; apply Nat.ltb_ge; lia).
  apply Nat.eqb_neq in H3, H6. rewrite Hc, H3, H6. reflexivity.
Qed.

(** C3, as the code has it: a batch whose row count is neither 3 nor 6
    ends the call before anything is evaluated, with the error of line 129
    when the counts of the arguments and the class of the batch are valid.
    A polar-motion argument that is given and is not a 2x1 or 1x2 pair
    always ends the call in an error, before any astronomical model or
    matrix is evaluated; when the call gets that far, the error is the one
    of line 222 and is raised after the TT-to-UT1 conversion of line 206,
    the last thing done before it. *)
Theorem C3_validation_errors E nlhs prhs :
  (mxGetM (arg prhs 0) <> 3 -> mxGetM (arg prhs 0) <> 6 ->
   (exists msg, mexFunction E nlhs prhs = ([], inl msg)) /\
   (3 <= length prhs <= 7 -> nlhs <= 2 ->
    checkRealDoubleArray E (arg prhs 0) = None ->
    mexFunction E nlhs prhs
    = ([], inl "The input vector has a bad dimensionality."%string)))
  /\
  (given prhs 4 = true -> is_pair (arg prhs 4) = false ->
   (exists msg, outcome (mexFunction E nlhs prhs) = inl msg) /\
   Forall (fun e => is_astro e = false) (events (mexFunction E nlhs prhs)) /\
   (forall TT1 TT2 l r,
      prologue E nlhs prhs = ([], inr (TT1, TT2)) ->
      resolve_ut1 E prhs TT1 TT2 = (l, inr r) ->
      checkRealDoubleArray E (arg prhs 4) = None ->
      mexFunction E nlhs prhs
      = (l, inl "The celestial pole offsets have the wrong dimensionality."%string)
      /\ last l = Some (Call TTUT1))).
Proof.
  split.
  - intros H3 H6. split; [now apply prologue_bad_rows |].
    intros. now apply prologue_bad_rows_msg.
  - intros Hg Hp.
    destruct (mexFunction_xpyp_malformed E nlhs prhs Hg Hp) as [He Hev].
    split; [exact He |]. split; [exact Hev |].
    intros TT1 TT2 l r Hpro Hut1 Hc. split.
    + apply (bundle_of_resolve_inl E nlhs prhs TT1 TT2); [assumption |].
      now apply (resolve_xpyp_malformed_at E prhs TT1 TT2 l r).
    + apply resolve_ut1_inv in Hut1 as (l0 & eop0 & _ & _ & _ & ->).
      apply last_snoc.
Qed.

Lemma C3_validation_errors_witness :
  mexFunction (Bench.externals 0) 1 [Bench.x4; Bench.Jul1; Bench.Jul2]
  = ([], inl "The input vector has a bad dimensionality."%string)
  /\
  mexFunction (Bench.externals 0) 1 Bench.prhs7_three
  = ([Call TTUT1],
     inl "The celestial pole offsets have the wrong dimensionality."%string)
  /\
  Forall (fun e => is_astro e = false)
    (events (mexFunction (Bench.externals 0) 1 Bench.prhs7_three)).
Proof.
  destruct (C3_validation_errors (Bench.externals 0) 1
              [Bench.x4; Bench.Jul1; Bench.Jul2]) as [Hrows _].
  destruct (C3_validation_errors (Bench.externals 0) 1 Bench.prhs7_three)
    as [_ Hxpyp].
  destruct (Hrows ltac:(cbn; lia) ltac:(cbn; lia)) as [_ Hmsg].
  destruct (Hxpyp eq_refl eq_refl) as (_ & Hastro & Hat).
  destruct (Hat _ _ _ _ ltac:(vm_compute; reflexivity)
              ltac:(vm_compute; reflexivity) eq_refl) as [Hrun _].
  split; [| split].
  - apply Hmsg; [cbn; lia | lia | reflexivity].
  - exact Hrun.
  - exact Hastro.
Defined.

(** The validation of the polar-motion argument comes after model
    evaluations: with all seven arguments given, after the TT-to-UT1
    conversion; with five, also after the TT-to-TAI and TAI-to-UTC
    conversions and the look-up of getEOP. *)
Lemma C3_counterexample :
  (exists log,
     mexFunction (Bench.externals 0) 1 Bench.prhs7_three
     = (log, inl msg_pole_offsets) /\
     existsb is_timescale log = true)
  /\
  (exists log,
     mexFunction (Bench.externals 0) 1 Bench.prhs5_three
     = (log, inl msg_pole_offsets) /\
     log = [Call TTTAI; Call TAIUTC; Call GETEOP; Call TTUT1] /\
     existsb is_timescale log = true /\ existsb is_lookup log = true).
Proof.
  split; eexists; repeat split; vm_compute; reflexivity.
Qed.

(** C10: the two messages are exchanged.  When the call gets as far as
    line 209, a malformed polar-motion argument xpyp ([prhs[4]]) ends it
    with the message about the celestial pole offsets, and a malformed
    celestial-pole-offset argument dXdY ([prhs[5]]) ends it with the
    message about the polar motion coordinates. *)
Theorem C10_messages_exchanged E nlhs prhs TT1 TT2 l r :
  prologue E nlhs prhs = ([], inr (TT1, TT2)) ->
  resolve_ut1 E prhs TT1 TT2 = (l, inr r) ->
  (given prhs 4 = true -> is_pair (arg prhs 4) = false ->
   checkRealDoubleArray E (arg prhs 4) = None ->
   mexFunction E nlhs prhs
   = (l, inl "The celestial pole offsets have the wrong dimensionality."%string))
  /\
  (given prhs 5 = true -> is_pair (arg prhs 5) = false ->
   checkRealDoubleArray E (arg prhs 5) = None ->
   (given prhs 4 = true ->
    checkRealDoubleArray E (arg prhs 4) = None /\ is_pair (arg prhs 4) = true) ->
   mexFunction E nlhs prhs
   = (l, inl "The polar motion coordinates have the wrong dimensionality."%string)).
Proof.
  intros Hpro Hr. split.
  - intros Hg Hp Hc. apply (bundle_of_resolve_inl E nlhs prhs TT1 TT2 _ _ Hpro).
    now apply (resolve_xpyp_malformed_at E prhs TT1 TT2 l r).
  - intros Hg Hp Hc H4.
    apply (bundle_of_resolve_inl E nlhs prhs TT1 TT2 _ _ Hpro).
    now apply (resolve_dXdY_malformed_at E prhs TT1 TT2 l r).
Qed.

Lemma C10_messages_exchanged_witness :
  mexFunction (Bench.externals 0) 1 Bench.prhs7_three
  = ([Call TTUT1],
     inl "The celestial pole offsets have the wrong dimensionality."%string)
  /\
  mexFunction (Bench.externals 0) 1 Bench.prhs7_dXdY_three
  = ([Call TTUT1],
     inl "The polar motion coordinates have the wrong dimensionality."%string).
Proof.
  split.
  - apply (C10_messages_exchanged (Bench.externals 0) 1 Bench.prhs7_three
             _ _ _ _ ltac:(vm_compute; reflexivity)
             ltac:(vm_compute; reflexivity)); reflexivity.
  - apply (C10_messages_exchanged (Bench.externals 0) 1
             Bench.prhs7_dXdY_three
             _ _ _ _ ltac:(vm_compute; reflexivity)
             ltac:(vm_compute; reflexivity)); try reflexivity.
    intros _. split; reflexivity.
Defined.

(** ** The call as one sequence of steps *)

Lemma bind_assoc {A B C} (m : Mex A) (k : A -> Mex B) (h : B -> Mex C) :
  bind (bind m k) h = bind m (fun a => bind (k a) h).
Proof.
  destruct m as [l [e | a]]; cbn; [reflexivity |].
  destruct (k a) as [l1 [e | b]]; cbn; [reflexivity |].
  destruct (h b) as [l2 r]. now rewrite app_assoc.
Qed.

Lemma bind_lift_inr {A B} (a : A) (k : A -> Mex B) :
  bind (lift (inr a)) k = k a.
Proof. apply bind_ret_l. Qed.

Lemma bind_ext {A B} (m : Mex A) (k k' : A -> Mex B) :
  (forall a, k a = k' a) -> bind m k = bind m k'.
Proof.
  intros H. destruct m as [l [e | a]]; cbn; [reflexivity |]. now rewrite H.
Qed.

Lemma mexFunction_after_prologue E nlhs prhs TT1 TT2 :
  prologue E nlhs prhs = ([], inr (TT1, TT2)) ->
  mexFunction E nlhs prhs
  = bind (lookupEOP E prhs TT1 TT2) (after_lookup E nlhs prhs TT1 TT2).
Proof.
  intros H. unfold mexFunction, bundle_of. rewrite !bind_assoc.
  rewrite (bind_inr _ _ _ _ H). cbn [app fst snd].
  rewrite <- surjective_mex.
  unfold resolve, resolve_ut1. rewrite !bind_assoc.
  apply bind_ext. intros eop0. unfold after_lookup.
  rewrite !bind_assoc. apply bind_ext. intros e1.
  rewrite !bind_assoc. apply bind_ext. intros [].
  rewrite bind_ret_l. cbn [fst snd].
  rewrite !bind_assoc. apply bind_ext. intros e2.
  rewrite !bind_assoc. apply bind_ext. intros e3.
  rewrite !bind_assoc. apply bind_ext. intros e4.
  rewrite bind_ret_l. reflexivity.
Qed.

(** ** The two paths: look-up, or all parameters from the caller *)

Section Paths.

Variable E : Externals.

Lemma needs_lookup_full prhs :
  length prhs = 7 ->
  mxIsEmpty (arg prhs 3) = false -> mxIsEmpty (arg prhs 4) = false ->
  mxIsEmpty (arg prhs 5) = false -> mxIsEmpty (arg prhs 6) = false ->
  needs_lookup prhs = false.
Proof. intros Hn H3 H4 H5 H6. unfold needs_lookup. now rewrite Hn, H3, H4, H5, H6. Qed.

Lemma needs_lookup_false prhs :
  needs_lookup prhs = false ->
  given prhs 3 = true /\ given prhs 4 = true /\
  given prhs 5 = true /\ given prhs 6 = true.
Proof.
  unfold needs_lookup, given. intros H.
  repeat (apply orb_false_elim in H as [H ?]).
  apply Nat.leb_gt in H.
  repeat split; apply andb_true_intro; split;
    try (apply Nat.ltb_lt; lia); now apply negb_true_iff.
Qed.

(** Lines 146-160, by the two statuses. *)
Lemma utc_of_tt_eval TT1 TT2 tai1 tai2 st utc :
  iauTttai E TT1 TT2 = (0%Z, (tai1, tai2)) ->
  iauTaiutc E tai1 tai2 = (st, utc) ->
  utc_of_tt E TT1 TT2
  = match st with
    | 1%Z => ([Call TTTAI; Call TAIUTC; Warn msg_dubious], inr utc)
    | (-1)%Z => ([Call TTTAI; Call TAIUTC], inl msg_unacceptable)
    | _ => ([Call TTTAI; Call TAIUTC], inr utc)
    end.
Proof.
  intros H1 H2. unfold utc_of_tt. rewrite H1, H2.
  destruct st as [| [p | p |] | [p | p |]]; reflexivity.
Qed.

(** An unacceptable date ends any call that needs the look-up. *)
Lemma mexFunction_unacceptable nlhs prhs TT1 TT2 tai1 tai2 utc :
  prologue E nlhs prhs = ([], inr (TT1, TT2)) ->
  needs_lookup prhs = true ->
  iauTttai E TT1 TT2 = (0%Z, (tai1, tai2)) ->
  iauTaiutc E tai1 tai2 = ((-1)%Z, utc) ->
  mexFunction E nlhs prhs
  = ([Call TTTAI; Call TAIUTC], inl msg_unacceptable).
Proof.
  intros Hp Hn H1 H2. rewrite (mexFunction_after_prologue _ _ _ _ _ Hp).
  unfold lookupEOP. rewrite Hn.
  now rewrite (utc_of_tt_eval _ _ _ _ _ _ H1 H2).
Qed.

(** Lines 253-303 always log the same calls, and fail only with
    [getScalarMatlabClassConst]. *)
Lemma events_compose TT1 TT2 UT11 UT12 eop :
  events (compose E TT1 TT2 UT11 UT12 eop) = compose_events.
Proof.
  unfold compose, called, lift, bind, ret.
  destruct (iauXys06a E TT1 TT2) as [[x y] s].
  now destruct (getScalarMatlabClassConst E _ _).
Qed.

Lemma compose_intro TT1 TT2 UT11 UT12 eop omega :
  getScalarMatlabClassConst E "Constants" "IERSMeanEarthRotationRate"
  = inr omega ->
  exists B, compose E TT1 TT2 UT11 UT12 eop = (compose_events, inr B).
Proof.
  intros H. unfold compose, called, lift, bind, ret.
  destruct (iauXys06a E TT1 TT2) as [[x y] s]. rewrite H. cbn. eauto.
Qed.

(** What lines 201-360 can log. *)
Lemma events_after_lookup (P : Event -> Prop) nlhs prhs TT1 TT2 eop0 :
  P (Call TTUT1) -> Forall P compose_events ->
  Forall P (events (after_lookup E nlhs prhs TT1 TT2 eop0)).
Proof.
  intros Hut Hco. unfold after_lookup.
  apply events_bind_Forall; [rewrite events_override_deltaT; constructor |].
  intros e1. apply events_bind_Forall; [now repeat constructor |]. intros _.
  apply events_bind_Forall; [rewrite events_override_xpyp; constructor |].
  intros e2.
  apply events_bind_Forall; [rewrite events_override_dXdY; constructor |].
  intros e3.
  apply events_bind_Forall; [rewrite events_override_LOD; constructor |].
  intros e4. cbn zeta.
  apply events_bind_Forall; [now rewrite events_compose |].
  intros B. constructor.
Qed.

Lemma events_full_path (P : Event -> Prop) nlhs prhs :
  needs_lookup prhs = false ->
  P (Call TTUT1) -> Forall P compose_events ->
  Forall P (events (mexFunction E nlhs prhs)).
Proof.
  intros Hn Hut Hco.
  destruct (prologue E nlhs prhs) as [l0 [e | [TT1 TT2]]] eqn:Hpro;
    pose proof (events_prologue E nlhs prhs) as Hev; rewrite Hpro in Hev;
    cbn in Hev; subst l0.
  - assert (Hb : bundle_of E nlhs prhs = ([], inl e))
      by (unfold bundle_of; now rewrite Hpro).
    rewrite (mexFunction_inl _ _ _ _ _ Hb). constructor.
  - rewrite (mexFunction_after_prologue _ _ _ _ _ Hpro).
    unfold lookupEOP. rewrite Hn, bind_ret_l.
    now apply events_after_lookup.
Qed.

(** With all seven arguments valid, lines 201-360 succeed. *)
Lemma after_lookup_full nlhs prhs TT1 TT2 eop0 d lod omega :
  needs_lookup prhs = false ->
  getDoubleFromMatlab E (arg prhs 3) = inr d ->
  checkRealDoubleArray E (arg prhs 4) = None -> is_pair (arg prhs 4) = true ->
  checkRealDoubleArray E (arg prhs 5) = None -> is_pair (arg prhs 5) = true ->
  getDoubleFromMatlab E (arg prhs 6) = inr lod ->
  getScalarMatlabClassConst E "Constants" "IERSMeanEarthRotationRate"
  = inr omega ->
  exists B,
    compose E TT1 TT2 (fst (iauTtut1 E TT1 TT2 d)) (snd (iauTtut1 E TT1 TT2 d))
      {| xp := nth 0 (mxGetData (arg prhs 4)) 0%float;
         yp := nth 1 (mxGetData (arg prhs 4)) 0%float;
         dX := nth 0 (mxGetData (arg prhs 5)) 0%float;
         dY := nth 1 (mxGetData (arg prhs 5)) 0%float;
         deltaT := d; LOD := lod |}
    = (compose_events, inr B) /\
    after_lookup E nlhs prhs TT1 TT2 eop0
    = (Call TTUT1 :: compose_events, inr (outputs E nlhs prhs B)).
Proof.
  intros Hn Hd Hc4 Hp4 Hc5 Hp5 Hl Hw.
  destruct (needs_lookup_false _ Hn) as (G3 & G4 & G5 & G6).
  destruct (compose_intro TT1 TT2 (fst (iauTtut1 E TT1 TT2 d))
              (snd (iauTtut1 E TT1 TT2 d))
              {| xp := nth 0 (mxGetData (arg prhs 4)) 0%float;
                 yp := nth 1 (mxGetData (arg prhs 4)) 0%float;
                 dX := nth 0 (mxGetData (arg prhs 5)) 0%float;
                 dY := nth 1 (mxGetData (arg prhs 5)) 0%float;
                 deltaT := d; LOD := lod |} omega Hw) as [B HB].
  exists B. split; [exact HB |].
  unfold after_lookup, override_deltaT, override_xpyp, override_dXdY,
    override_LOD, check_real_double.
  rewrite G3, G4, G5, G6, Hd, Hc4, Hp4, Hc5, Hp5, Hl.
  cbn -[compose outputs compose_events]. rewrite HB.
  cbn -[outputs compose_events]. now rewrite app_nil_r.
Qed.

End Paths.

(** C9: with all seven arguments given and none of the four parameter
    arguments empty, the call makes no TT-to-TAI or TAI-to-UTC conversion,
    no look-up and raises no warning; with valid arguments it completes,
    even at an epoch that ends every call on the look-up path with
    "Unacceptable date entered". *)
Theorem C9_full_override_skips_date_checks E nlhs prhs :
  length prhs = 7 ->
  mxIsEmpty (arg prhs 3) = false -> mxIsEmpty (arg prhs 4) = false ->
  mxIsEmpty (arg prhs 5) = false -> mxIsEmpty (arg prhs 6) = false ->
  Forall (fun e => is_lookup e = false /\ is_warning e = false)
    (events (mexFunction E nlhs prhs)) /\
  (forall TT1 TT2 d lod omega,
     prologue E nlhs prhs = ([], inr (TT1, TT2)) ->
     getDoubleFromMatlab E (arg prhs 3) = inr d ->
     checkRealDoubleArray E (arg prhs 4) = None -> is_pair (arg prhs 4) = true ->
     checkRealDoubleArray E (arg prhs 5) = None -> is_pair (arg prhs 5) = true ->
     getDoubleFromMatlab E (arg prhs 6) = inr lod ->
     getScalarMatlabClassConst E "Constants" "IERSMeanEarthRotationRate"
     = inr omega ->
     (exists plhs,
        mexFunction E nlhs prhs = (Call TTUT1 :: compose_events, inr plhs)) /\
     (forall nlhs' prhs' tai1 tai2 utc,
        prologue E nlhs' prhs' = ([], inr (TT1, TT2)) ->
        needs_lookup prhs' = true ->
        iauTttai E TT1 TT2 = (0%Z, (tai1, tai2)) ->
        iauTaiutc E tai1 tai2 = ((-1)%Z, utc) ->
        mexFunction E nlhs' prhs'
        = ([Call TTTAI; Call TAIUTC], inl "Unacceptable date entered"%string))).
Proof.
  intros Hn H3 H4 H5 H6.
  pose proof (needs_lookup_full prhs Hn H3 H4 H5 H6) as Hfull. split.
  - apply events_full_path; [assumption | now split |].
    unfold compose_events. repeat constructor.
  - intros TT1 TT2 d lod omega Hpro Hd Hc4 Hp4 Hc5 Hp5 Hl Hw. split.
    + destruct (after_lookup_full E nlhs prhs TT1 TT2 eop_init d lod omega)
        as (B & _ & HB); try assumption.
      exists (outputs E nlhs prhs B).
      rewrite (mexFunction_after_prologue _ _ _ _ _ Hpro).
      unfold lookupEOP. now rewrite Hfull, bind_ret_l.
    + intros nlhs' prhs' tai1 tai2 utc Hpro' Hn' Ht1 Ht2.
      now apply (mexFunction_unacceptable E nlhs' prhs' TT1 TT2 tai1 tai2 utc).
Qed.

Lemma C9_full_override_skips_date_checks_witness :
  (exists plhs,
     mexFunction (Bench.externals (-1)) 1 Bench.prhs7
     = (Call TTUT1 :: compose_events, inr plhs)) /\
  mexFunction (Bench.externals (-1)) 1 Bench.prhs3
  = ([Call TTTAI; Call TAIUTC], inl "Unacceptable date entered"%string).
Proof.
  destruct (C9_full_override_skips_date_checks (Bench.externals (-1)) 1
              Bench.prhs7 eq_refl eq_refl eq_refl eq_refl eq_refl)
    as [_ Hvalid].
  destruct (Hvalid _ _ _ _ _ ltac:(vm_compute; reflexivity)
              ltac:(vm_compute; reflexivity) eq_refl eq_refl eq_refl eq_refl
              ltac:(vm_compute; reflexivity) ltac:(vm_compute; reflexivity))
    as [Hrun Hlookup].
  split; [exact Hrun |].
  apply (Hlookup 1 Bench.prhs3 _ _ _ ltac:(vm_compute; reflexivity) eq_refl
           ltac:(vm_compute; reflexivity) ltac:(vm_compute; reflexivity)).
Defined.

(** ** Dubious and unacceptable dates *)

(** A dubious date: the warning is logged after the two conversions, and
    the call goes on with line 162 exactly as it does when the conversion
    raises no flag. *)
Lemma mexFunction_dubious E nlhs prhs TT1 TT2 tai1 tai2 utc :
  prologue E nlhs prhs = ([], inr (TT1, TT2)) ->
  needs_lookup prhs = true ->
  iauTttai E TT1 TT2 = (0%Z, (tai1, tai2)) ->
  iauTaiutc E tai1 tai2 = (1%Z, utc) ->
  let rest := bind (eop_of_utc E utc) (after_lookup E nlhs prhs TT1 TT2) in
  mexFunction E nlhs prhs
  = ([Call TTTAI; Call TAIUTC; Warn msg_dubious] ++ events rest, outcome rest)
  /\
  mexFunction (undisputed E) nlhs prhs
  = ([Call TTTAI; Call TAIUTC] ++ events rest, outcome rest).
Proof.
  intros Hp Hn H1 H2 rest. split.
  - rewrite (mexFunction_after_prologue _ _ _ _ _ Hp).
    unfold lookupEOP. rewrite Hn, bind_assoc.
    rewrite (bind_inr _ _ _ _ (utc_of_tt_eval E _ _ _ _ _ _ H1 H2)).
    reflexivity.
  - assert (Hp' : prologue (undisputed E) nlhs prhs = ([], inr (TT1, TT2)))
      by exact Hp.
    rewrite (mexFunction_after_prologue _ _ _ _ _ Hp').
    unfold lookupEOP. rewrite Hn, bind_assoc.
    assert (H2' : iauTaiutc (undisputed E) tai1 tai2 = (0%Z, utc))
      by (cbn; now rewrite H2).
    rewrite (bind_inr _ _ _ _
               (utc_of_tt_eval (undisputed E) _ _ _ _ _ _ H1 H2')).
    reflexivity.
Qed.

(** C6: on the look-up path, when the TAI-to-UTC conversion reports a
    dubious date (status 1) the call logs the warning "Dubious Date
    entered." and then does and returns what it does and returns when
    the conversion raises no flag, so it produces its output whenever that
    call does; when the conversion reports an unacceptable date
    (status -1) the call ends with the error "Unacceptable date entered"
    and has no output. *)
Theorem C6_dubious_warns_unacceptable_aborts
    E nlhs prhs TT1 TT2 tai1 tai2 st utc :
  prologue E nlhs prhs = ([], inr (TT1, TT2)) ->
  needs_lookup prhs = true ->
  iauTttai E TT1 TT2 = (0%Z, (tai1, tai2)) ->
  iauTaiutc E tai1 tai2 = (st, utc) ->
  (st = 1%Z ->
   exists rest result,
     mexFunction E nlhs prhs
     = ([Call TTTAI; Call TAIUTC; Warn "Dubious Date entered."] ++ rest,
        result) /\
     mexFunction (undisputed E) nlhs prhs
     = ([Call TTTAI; Call TAIUTC] ++ rest, result) /\
     (forall plhs,
        outcome (mexFunction (undisputed E) nlhs prhs) = inr plhs ->
        outcome (mexFunction E nlhs prhs) = inr plhs))
  /\
  (st = (-1)%Z ->
   mexFunction E nlhs prhs
   = ([Call TTTAI; Call TAIUTC], inl "Unacceptable date entered"%string)).
Proof.
  intros Hp Hn H1 H2. split; intros ->.
  - destruct (mexFunction_dubious E nlhs prhs TT1 TT2 tai1 tai2 utc
                Hp Hn H1 H2) as [Hd Hu].
    eexists _, _. split; [exact Hd |]. split; [exact Hu |].
    intros plhs. rewrite Hd, Hu. trivial.
  - now apply (mexFunction_unacceptable E nlhs prhs TT1 TT2 tai1 tai2 utc).
Qed.

Lemma C6_dubious_warns_unacceptable_aborts_witness :
  (exists plhs,
     mexFunction (Bench.externals 1) 1 Bench.prhs3
     = ([Call TTTAI; Call TAIUTC; Warn "Dubious Date entered.";
         Call GETEOP; Call TTUT1; Call XYS06A; Call C2IXYS; Call ERA00;
         Call SP00; Call POM00; Call C2TCIO; Call C2TCIO; Call CLASSCONST],
        inr plhs))
  /\
  mexFunction (Bench.externals (-1)) 1 Bench.prhs3
  = ([Call TTTAI; Call TAIUTC], inl "Unacceptable date entered"%string).
Proof.
  split.
  - destruct (C6_dubious_warns_unacceptable_aborts (Bench.externals 1) 1
                Bench.prhs3 _ _ _ _ 1%Z _
                ltac:(vm_compute; reflexivity) eq_refl
                ltac:(vm_compute; reflexivity)
                ltac:(vm_compute; reflexivity))
      as [Hdub _].
    destruct (Hdub eq_refl) as (rest & result & Hrun & Hund & _).
    vm_compute in Hund. injection Hund as <- <-.
    eexists. exact Hrun.
  - destruct (C6_dubious_warns_unacceptable_aborts (Bench.externals (-1)) 1
                Bench.prhs3 _ _ _ _ (-1)%Z _
                ltac:(vm_compute; reflexivity) eq_refl
                ltac:(vm_compute; reflexivity)
                ltac:(vm_compute; reflexivity))
      as [_ Hbad].
    exact (Hbad eq_refl).
Defined.

(** ** The full-override path against the look-up path *)

Section Override.

Variable E : Externals.

Lemma mexFunction_unfold nlhs prhs :
  mexFunction E nlhs prhs
  = (events (bundle_of E nlhs prhs),
     match outcome (bundle_of E nlhs prhs) with
     | inl e => inl e
     | inr B => inr (outputs E nlhs prhs B)
     end).
Proof.
  unfold mexFunction. destruct (bundle_of E nlhs prhs) as [l [e | B]]; cbn;
    [reflexivity | now rewrite app_nil_r].
Qed.

Lemma bundle_of_after_prologue nlhs prhs TT1 TT2 :
  prologue E nlhs prhs = ([], inr (TT1, TT2)) ->
  bundle_of E nlhs prhs
  = bind (resolve E prhs TT1 TT2)
      (fun r => compose E TT1 TT2 (fst (fst r)) (snd (fst r)) (snd r)).
Proof.
  intros H. unfold bundle_of. rewrite (bind_inr _ _ _ _ H). cbn [app fst snd].
  now rewrite <- surjective_mex.
Qed.

(** The resolution of the parameters, when every step of it passes. *)
Lemma resolve_eval prhs TT1 TT2 l eop0 e1 e2 e3 e4 :
  lookupEOP E prhs TT1 TT2 = (l, inr eop0) ->
  override_deltaT E prhs eop0 = ([], inr e1) ->
  override_xpyp E prhs e1 = ([], inr e2) ->
  override_dXdY E prhs e2 = ([], inr e3) ->
  override_LOD E prhs e3 = ([], inr e4) ->
  resolve E prhs TT1 TT2
  = (l ++ [Call TTUT1], inr (iauTtut1 E TT1 TT2 (deltaT e1), e4)).
Proof.
  intros Hl H1 H2 H3 H4.
  assert (Hu : resolve_ut1 E prhs TT1 TT2
               = (l ++ [Call TTUT1],
                  inr (iauTtut1 E TT1 TT2 (deltaT e1), e1))).
  { unfold resolve_ut1.
    rewrite (bind_inr _ _ _ _ Hl), (bind_inr _ _ _ _ H1). reflexivity. }
  unfold resolve. rewrite (bind_inr _ _ _ _ Hu). cbn [fst snd].
  rewrite (bind_inr _ _ _ _ H2), (bind_inr _ _ _ _ H3), (bind_inr _ _ _ _ H4).
  cbn. now rewrite !app_nil_r.
Qed.

Lemma EOP_eta eop :
  {| xp := xp eop; yp := yp eop; dX := dX eop; dY := dY eop;
     deltaT := deltaT eop; LOD := LOD eop |} = eop.
Proof. now destruct eop. Qed.

End Override.

(** C4: when the caller gives all of TT-UT1, xpyp, dXdY and LOD, the call
    makes no TT-to-TAI or TAI-to-UTC conversion and no look-up, and it
    returns the rotation bundle and the outputs of the call that gives
    none of them and gets the same values from getEOP.  The parameters
    are merged group by group: a caller who gives TT-UT1 alone gets xp, yp,
    dX, dY and LOD from getEOP. *)
Theorem C4_full_override_equals_lookup
    E nlhs x Jul1 Jul2 dT xpyp dXdY lod TT1 TT2 l eop :
  let prhs3 := [x; Jul1; Jul2] in
  let prhs7 := [x; Jul1; Jul2; dT; xpyp; dXdY; lod] in
  prologue E nlhs prhs3 = ([], inr (TT1, TT2)) ->
  lookupEOP E prhs3 TT1 TT2 = (l, inr eop) ->
  mxIsEmpty dT = false -> mxIsEmpty xpyp = false ->
  mxIsEmpty dXdY = false -> mxIsEmpty lod = false ->
  getDoubleFromMatlab E dT = inr (deltaT eop) ->
  checkRealDoubleArray E xpyp = None -> is_pair xpyp = true ->
  nth 0 (mxGetData xpyp) 0%float = xp eop ->
  nth 1 (mxGetData xpyp) 0%float = yp eop ->
  checkRealDoubleArray E dXdY = None -> is_pair dXdY = true ->
  nth 0 (mxGetData dXdY) 0%float = dX eop ->
  nth 1 (mxGetData dXdY) 0%float = dY eop ->
  getDoubleFromMatlab E lod = inr (LOD eop) ->
  Forall (fun e => is_lookup e = false) (events (mexFunction E nlhs prhs7)) /\
  events (mexFunction E nlhs prhs3) = l ++ events (mexFunction E nlhs prhs7) /\
  outcome (bundle_of E nlhs prhs7) = outcome (bundle_of E nlhs prhs3) /\
  outcome (mexFunction E nlhs prhs7) = outcome (mexFunction E nlhs prhs3) /\
  (forall dT' d',
     mxIsEmpty dT' = false -> getDoubleFromMatlab E dT' = inr d' ->
     resolve E [x; Jul1; Jul2; dT'] TT1 TT2
     = (l ++ [Call TTUT1],
        inr (iauTtut1 E TT1 TT2 d',
             {| xp := xp eop; yp := yp eop; dX := dX eop; dY := dY eop;
                deltaT := d'; LOD := LOD eop |}))).
Proof.
  intros prhs3 prhs7 Hpro Hlook HdT Hxpyp HdXdY Hlod Hd Hc4 Hp4 Hx Hy
    Hc5 Hp5 HX HY Hl.
  assert (Hpro7 : prologue E nlhs prhs7 = ([], inr (TT1, TT2))) by exact Hpro.
  assert (Hr3 : resolve E prhs3 TT1 TT2
                = (l ++ [Call TTUT1],
                   inr (iauTtut1 E TT1 TT2 (deltaT eop), eop)))
    by (now apply (resolve_eval E prhs3 TT1 TT2 l eop eop eop eop eop)).
  assert (Hr7 : resolve E prhs7 TT1 TT2
                = ([Call TTUT1], inr (iauTtut1 E TT1 TT2 (deltaT eop), eop))).
  { apply (resolve_eval E prhs7 TT1 TT2 [] eop_init
             {| xp := 0; yp := 0; dX := 0; dY := 0;
                deltaT := deltaT eop; LOD := 0 |}%float
             {| xp := xp eop; yp := yp eop; dX := 0; dY := 0;
                deltaT := deltaT eop; LOD := 0 |}%float
             {| xp := xp eop; yp := yp eop; dX := dX eop; dY := dY eop;
                deltaT := deltaT eop; LOD := 0 |}%float eop).
    - unfold lookupEOP, needs_lookup. cbn. now rewrite HdT, Hxpyp, HdXdY, Hlod.
    - unfold override_deltaT, given. cbn. now rewrite HdT, Hd.
    - unfold override_xpyp, given, check_real_double. cbn.
      now rewrite Hxpyp, Hc4, Hp4, Hx, Hy.
    - unfold override_dXdY, given, check_real_double. cbn.
      now rewrite HdXdY, Hc5, Hp5, HX, HY.
    - unfold override_LOD, given. cbn. rewrite Hlod, Hl. cbn.
      now rewrite EOP_eta. }
  assert (Hb3 := bundle_of_after_prologue E nlhs prhs3 TT1 TT2 Hpro).
  assert (Hb7 := bundle_of_after_prologue E nlhs prhs7 TT1 TT2 Hpro7).
  rewrite (bind_inr _ _ _ _ Hr3) in Hb3. rewrite (bind_inr _ _ _ _ Hr7) in Hb7.
  cbn [fst snd] in Hb3, Hb7.
  rewrite !mexFunction_unfold, Hb3, Hb7. cbn [events outcome fst snd].
  rewrite events_compose.
  split; [repeat constructor |]. split; [now rewrite <- app_assoc |].
  split; [reflexivity |]. split; [reflexivity |].
  intros dT' d' HdT' Hd'.
  set (e1 := {| xp := xp eop; yp := yp eop; dX := dX eop; dY := dY eop;
                deltaT := d'; LOD := LOD eop |}).
  apply (resolve_eval E [x; Jul1; Jul2; dT'] TT1 TT2 l eop e1 e1 e1 e1);
    try reflexivity.
  - exact Hlook.
  - unfold override_deltaT, given. cbn. now rewrite HdT', Hd'.
Qed.

Lemma C4_full_override_equals_lookup_witness :
  exists plhs,
    mexFunction (Bench.externals 0) 2 Bench.prhs7
    = (Call TTUT1 :: compose_events, inr plhs) /\
    outcome (mexFunction (Bench.externals 0) 2 Bench.prhs3) = inr plhs /\
    events (mexFunction (Bench.externals 0) 2 Bench.prhs3)
    = [Call TTTAI; Call TAIUTC; Call GETEOP; Call TTUT1] ++ compose_events.
Proof.
  destruct (C4_full_override_equals_lookup (Bench.externals 0) 2
              Bench.x3 Bench.Jul1 Bench.Jul2 Bench.deltaTTUT1 Bench.xpyp
              Bench.dXdY Bench.LOD1 _ _ _ _
              ltac:(vm_compute; reflexivity) ltac:(vm_compute; reflexivity)
              eq_refl eq_refl eq_refl eq_refl eq_refl eq_refl eq_refl
              eq_refl eq_refl eq_refl eq_refl eq_refl eq_refl eq_refl)
    as (_ & Hev & _ & Hout & _).
  eexists. split; [vm_compute; reflexivity |]. unfold Bench.prhs3. split.
  - rewrite <- Hout. vm_compute. reflexivity.
  - rewrite Hev. vm_compute. reflexivity.
Defined.

(** ** The length of day and position-only batches *)

Section LengthOfDay.

Variable E : Externals.

Lemma arg_insert_ne (prhs : list mxArray) i j v :
  i <> j -> arg (<[i:=v]> prhs) j = arg prhs j.
Proof.
  intros H. unfold arg. now rewrite !nth_lookup, list_lookup_insert_ne.
Qed.

Lemma arg_insert_eq (prhs : list mxArray) i v :
  i < length prhs -> arg (<[i:=v]> prhs) i = v.
Proof.
  intros H. unfold arg. now rewrite nth_lookup, list_lookup_insert_eq.
Qed.

(** With three rows the loop reads no more of the bundle than GCRS2ITRS. *)
Lemma transform_rows3 B B' numVec xVec :
  GCRS2ITRS B' = GCRS2ITRS B ->
  transform E B' 3 numVec xVec = transform E B 3 numVec xVec.
Proof.
  intros H. unfold transform. f_equal.
  generalize (mxGetData (mxCreateDoubleMatrix 3 numVec)).
  induction (seq 0 numVec) as [| k ks IH]; intros mem; [reflexivity |].
  cbn [fold_left]. rewrite IH. f_equal.
  unfold transform_vec. cbn [Nat.ltb Nat.leb]. now rewrite H.
Qed.

Lemma outputs_rows3 nlhs prhs prhs' B B' :
  arg prhs' 0 = arg prhs 0 -> mxGetM (arg prhs 0) = 3 ->
  GCRS2ITRS B' = GCRS2ITRS B ->
  outputs E nlhs prhs' B' = outputs E nlhs prhs B.
Proof.
  intros Hx H3 HB. unfold outputs. rewrite Hx, H3, HB.
  now rewrite (transform_rows3 B B' _ _ HB).
Qed.

(** Lines 253-360 of two calls that differ in LOD alone, on three rows. *)
Lemma compose_outputs_rows3 nlhs prhs prhs' TT1 TT2 UT11 UT12 eop lod lod' :
  arg prhs' 0 = arg prhs 0 -> mxGetM (arg prhs 0) = 3 ->
  bind (compose E TT1 TT2 UT11 UT12
          {| xp := xp eop; yp := yp eop; dX := dX eop; dY := dY eop;
             deltaT := deltaT eop; LOD := lod' |})
       (fun B => ret (outputs E nlhs prhs' B))
  = bind (compose E TT1 TT2 UT11 UT12
            {| xp := xp eop; yp := yp eop; dX := dX eop; dY := dY eop;
               deltaT := deltaT eop; LOD := lod |})
         (fun B => ret (outputs E nlhs prhs B)).
Proof.
  intros Hx H3. unfold compose, called, lift, bind, ret.
  destruct (iauXys06a E TT1 TT2) as [[x y] s].
  destruct (getScalarMatlabClassConst E _ _) as [e | omega]; cbn;
    [reflexivity |].
  f_equal. f_equal. now apply outputs_rows3.
Qed.

Lemma prologue_insert6 nlhs prhs v :
  prologue E nlhs (<[6:=v]> prhs) = prologue E nlhs prhs.
Proof.
  unfold prologue. now rewrite length_insert, !arg_insert_ne by lia.
Qed.

Lemma needs_lookup_insert6 prhs v :
  mxIsEmpty (arg prhs 6) = false -> mxIsEmpty v = false ->
  needs_lookup (<[6:=v]> prhs) = needs_lookup prhs.
Proof.
  intros He Hv. unfold needs_lookup.
  rewrite length_insert, !arg_insert_ne by lia.
  destruct (Nat.leb_spec (length prhs) 6) as [Hle | Hgt]; [reflexivity |].
  now rewrite arg_insert_eq, He, Hv by lia.
Qed.

Lemma given_insert6_ne prhs v i :
  i <> 6 -> given (<[6:=v]> prhs) i = given prhs i.
Proof.
  intros H. unfold given. now rewrite length_insert, arg_insert_ne by lia.
Qed.

Lemma after_lookup_insert6 nlhs prhs v TT1 TT2 eop0 l1 l2 :
  mxGetM (arg prhs 0) = 3 ->
  7 <= length prhs ->
  mxIsEmpty (arg prhs 6) = false -> mxIsEmpty v = false ->
  getDoubleFromMatlab E (arg prhs 6) = inr l1 ->
  getDoubleFromMatlab E v = inr l2 ->
  after_lookup E nlhs (<[6:=v]> prhs) TT1 TT2 eop0
  = after_lookup E nlhs prhs TT1 TT2 eop0.
Proof.
  intros H3 Hlen He Hv Hl1 Hl2. unfold after_lookup.
  unfold override_deltaT at 1, override_xpyp at 1, override_dXdY at 1.
  rewrite !given_insert6_ne, !arg_insert_ne by lia.
  fold (override_deltaT E prhs eop0).
  apply bind_ext. intros e1. apply bind_ext. intros _.
  fold (override_xpyp E prhs e1).
  apply bind_ext. intros e2.
  fold (override_dXdY E prhs e2).
  apply bind_ext. intros e3.
  unfold override_LOD, given.
  rewrite length_insert, arg_insert_eq by lia.
  replace (6 <? length prhs) with true by (symmetry; apply Nat.ltb_lt; lia).
  rewrite He, Hv, Hl1, Hl2. cbn [andb negb].
  rewrite !bind_assoc, !bind_lift_inr, !bind_ret_l.
  apply compose_outputs_rows3; [now apply arg_insert_ne | assumption].
Qed.

End LengthOfDay.

(** C7: on a batch of 3-row vectors, two calls that differ in the value of
    the LOD argument alone log the same events and return the same outputs
    (the transformed batch and the rotation matrix), or end in the same
    error. *)
Theorem C7_LOD_without_effect_on_positions E nlhs prhs lod' l1 l2 :
  mxGetM (arg prhs 0) = 3 ->
  mxIsEmpty (arg prhs 6) = false -> mxIsEmpty lod' = false ->
  getDoubleFromMatlab E (arg prhs 6) = inr l1 ->
  getDoubleFromMatlab E lod' = inr l2 ->
  mexFunction E nlhs (<[6:=lod']> prhs) = mexFunction E nlhs prhs.
Proof.
  intros H3 He He' Hl1 Hl2.
  destruct (Nat.le_gt_cases (length prhs) 6) as [Hshort | Hlong].
  - now rewrite list_insert_ge by lia.
  - destruct (prologue E nlhs prhs) as [l0 [e | [TT1 TT2]]] eqn:Hpro;
      pose proof (events_prologue E nlhs prhs) as Hev; rewrite Hpro in Hev;
      cbn in Hev; subst l0.
    + rewrite !mexFunction_unfold. unfold bundle_of.
      now rewrite prologue_insert6, Hpro.
    + assert (Hpro' : prologue E nlhs (<[6:=lod']> prhs)
                      = ([], inr (TT1, TT2)))
        by now rewrite prologue_insert6.
      rewrite (mexFunction_after_prologue _ _ _ _ _ Hpro),
        (mexFunction_after_prologue _ _ _ _ _ Hpro').
      unfold lookupEOP. rewrite needs_lookup_insert6 by assumption.
      destruct (needs_lookup prhs).
      * apply bind_ext. intros eop0.
        now apply (after_lookup_insert6 E nlhs prhs lod' TT1 TT2 eop0 l1 l2).
      * rewrite !bind_ret_l.
        now apply (after_lookup_insert6 E nlhs prhs lod' TT1 TT2 _ l1 l2).
Qed.

Lemma C7_LOD_without_effect_on_positions_witness :
  mexFunction (Bench.externals 0) 2 Bench.prhs7_lod0
  = mexFunction (Bench.externals 0) 2 Bench.prhs7.
Proof.
  apply (C7_LOD_without_effect_on_positions (Bench.externals 0) 2
           Bench.prhs7 Bench.LOD0 43200%float 0%float
           eq_refl eq_refl eq_refl eq_refl eq_refl).
Defined.

(** * Further properties of the gateway *)

(** ** The counts of the arguments (lines 115-121) *)

(** X1: a call with fewer than three or more than seven inputs ends with
    "Wrong number of inputs", and a call with a valid number of inputs
    that asks for more than two outputs ends with "Wrong number of
    outputs."; in both cases nothing has been evaluated. *)
Theorem X1_argument_counts E nlhs prhs :
  ((length prhs < 3 \/ 7 < length prhs) ->
   mexFunction E nlhs prhs = ([], inl "Wrong number of inputs"%string))
  /\
  (3 <= length prhs <= 7 -> 2 < nlhs ->
   mexFunction E nlhs prhs = ([], inl "Wrong number of outputs."%string)).
Proof.
  split.
  - intros H. apply mexFunction_inl. unfold bundle_of, prologue.
    replace ((length prhs <? 3) || (7 <? length prhs)) with true;
      [reflexivity |].
    symmetry. apply orb_true_iff. rewrite !Nat.ltb_lt. exact H.
  - intros Hn Hl. apply mexFunction_inl. unfold bundle_of, prologue.
    replace ((length prhs <? 3) || (7 <? length prhs)) with false
      by (symmetry; apply orb_false_intro; apply Nat.ltb_ge; lia).
    replace (2 <? nlhs) with true by (symmetry; now apply Nat.ltb_lt).
    reflexivity.
Qed.

Lemma X1_argument_counts_witness :
  mexFunction (Bench.externals 0) 1 [Bench.x3; Bench.Jul1]
  = ([], inl "Wrong number of inputs"%string)
  /\
  mexFunction (Bench.externals 0) 3 Bench.prhs3
  = ([], inl "Wrong number of outputs."%string).
Proof.
  destruct (X1_argument_counts (Bench.externals 0) 1 [Bench.x3; Bench.Jul1])
    as [Hin _].
  destruct (X1_argument_counts (Bench.externals 0) 3 Bench.prhs3)
    as [_ Hout].
  split; [apply Hin; cbn; lia | apply Hout; cbn; lia].
Defined.

(** ** The statuses of the two conversions (lines 146-160) *)

Lemma events_eop_of_utc (P : Event -> Prop) E utc :
  P (Call GETEOP) -> Forall P (events (eop_of_utc E utc)).
Proof.
  intros H. unfold eop_of_utc. step_events; repeat constructor; assumption.
Qed.

(** X2: on a call that needs the look-up, a status of [iauTttai] other
    than zero ends the call with "An error occurred computing TAI." right
    after that conversion: neither the TAI-to-UTC conversion nor getEOP
    is reached. *)
Theorem X2_TAI_status_ends_call E nlhs prhs TT1 TT2 st tai :
  prologue E nlhs prhs = ([], inr (TT1, TT2)) ->
  needs_lookup prhs = true ->
  iauTttai E TT1 TT2 = (st, tai) ->
  st <> 0%Z ->
  mexFunction E nlhs prhs
  = ([Call TTTAI], inl "An error occurred computing TAI."%string).
Proof.
  intros Hp Hn Ht Hst. rewrite (mexFunction_after_prologue _ _ _ _ _ Hp).
  unfold lookupEOP, utc_of_tt. rewrite Hn, Ht. destruct tai as [tai1 tai2].
  apply Z.eqb_neq in Hst. rewrite Hst.
  now destruct (iauTaiutc E tai1 tai2).
Qed.

Lemma X2_TAI_status_ends_call_witness :
  mexFunction (Cases.tai_status 1) 1 Bench.prhs3
  = ([Call TTTAI], inl "An error occurred computing TAI."%string).
Proof.
  apply (X2_TAI_status_ends_call (Cases.tai_status 1) 1 Bench.prhs3 _ _ 1%Z _
           ltac:(vm_compute; reflexivity) eq_refl
           ltac:(vm_compute; reflexivity)).
  discriminate.
Defined.

(** X3: a status of [iauTaiutc] other than 1 and -1 is passed over in
    silence: the call logs and returns exactly what it does for status 0
    with the same UTC date, and no warning is raised. *)
Theorem X3_other_UTC_statuses_silent E nlhs prhs TT1 TT2 tai1 tai2 st utc :
  prologue E nlhs prhs = ([], inr (TT1, TT2)) ->
  needs_lookup prhs = true ->
  iauTttai E TT1 TT2 = (0%Z, (tai1, tai2)) ->
  iauTaiutc E tai1 tai2 = (st, utc) ->
  st <> 1%Z -> st <> (-1)%Z ->
  mexFunction E nlhs prhs = mexFunction (undisputed E) nlhs prhs /\
  Forall (fun e => is_warning e = false) (events (mexFunction E nlhs prhs)).
Proof.
  intros Hp Hn H1 H2 Hne1 Hne2.
  assert (Hp' : prologue (undisputed E) nlhs prhs = ([], inr (TT1, TT2)))
    by exact Hp.
  assert (H2' : iauTaiutc (undisputed E) tai1 tai2 = (0%Z, utc))
    by (cbn; now rewrite H2).
  assert (Hu : utc_of_tt E TT1 TT2 = ([Call TTTAI; Call TAIUTC], inr utc)).
  { rewrite (utc_of_tt_eval E _ _ _ _ _ _ H1 H2).
    destruct st as [| [p | p |] | [p | p |]]; congruence. }
  rewrite (mexFunction_after_prologue _ _ _ _ _ Hp),
    (mexFunction_after_prologue _ _ _ _ _ Hp').
  unfold lookupEOP. rewrite Hn, Hu.
  rewrite (utc_of_tt_eval (undisputed E) _ _ _ _ _ _ H1 H2').
  split; [reflexivity |].
  rewrite bind_assoc. apply events_bind_Forall; [repeat constructor |].
  intros utc'. apply events_bind_Forall; [now apply events_eop_of_utc |].
  intros eop0. apply events_after_lookup; [reflexivity |].
  unfold compose_events. repeat constructor.
Qed.

Lemma X3_other_UTC_statuses_silent_witness :
  mexFunction (Bench.externals 2) 1 Bench.prhs3
  = mexFunction (undisputed (Bench.externals 2)) 1 Bench.prhs3 /\
  Forall (fun e => is_warning e = false)
    (events (mexFunction (Bench.externals 2) 1 Bench.prhs3)).
Proof.
  apply (X3_other_UTC_statuses_silent (Bench.externals 2) 1 Bench.prhs3
           _ _ _ _ 2%Z _
           ltac:(vm_compute; reflexivity) eq_refl
           ltac:(vm_compute; reflexivity) ltac:(vm_compute; reflexivity));
    discriminate.
Defined.

(** ** The reply of getEOP (lines 166-180) *)

(** X4: when getEOP is reached and its first two outputs pass the class
    check, the call goes on only if both are 2x1; otherwise it ends with
    "Error using the getEOP function." right after the look-up, before the
    UT1 date or any astronomical model is computed.  A 1x2 row, which is
    accepted from the caller, is refused here. *)
Theorem X4_getEOP_reply_shape E nlhs prhs TT1 TT2 pre utc reply :
  prologue E nlhs prhs = ([], inr (TT1, TT2)) ->
  needs_lookup prhs = true ->
  utc_of_tt E TT1 TT2 = (pre, inr utc) ->
  getEOP E (mxScalar (fst utc)) (mxScalar (snd utc)) = inr reply ->
  checkRealDoubleArray E (retVals0 reply) = None ->
  checkRealDoubleArray E (retVals1 reply) = None ->
  ~ (mxGetM (retVals0 reply) = 2 /\ mxGetN (retVals0 reply) = 1 /\
     mxGetM (retVals1 reply) = 2 /\ mxGetN (retVals1 reply) = 1) ->
  mexFunction E nlhs prhs
  = (pre ++ [Call GETEOP], inl "Error using the getEOP function."%string).
Proof.
  intros Hp Hn Hu Hg Hc0 Hc1 Hshape.
  rewrite (mexFunction_after_prologue _ _ _ _ _ Hp).
  unfold lookupEOP. rewrite Hn, bind_assoc, (bind_inr _ _ _ _ Hu).
  assert (He : eop_of_utc E utc = ([Call GETEOP], inl msg_getEOP));
    [| now rewrite (bind_inl _ _ _ _ He)].
  unfold eop_of_utc. rewrite Hg.
  rewrite (bind_inr (called GETEOP) _ [Call GETEOP] tt eq_refl).
  rewrite bind_lift_inr. unfold check_real_double.
  rewrite Hc0, Hc1, !bind_ret_l.
  destruct (negb (mxGetM (retVals0 reply) =? 2)
            || negb (mxGetN (retVals0 reply) =? 1)
            || negb (mxGetM (retVals1 reply) =? 2)
            || negb (mxGetN (retVals1 reply) =? 1)) eqn:Hb.
  - reflexivity.
  - exfalso. apply Hshape.
    repeat (apply orb_false_elim in Hb as [Hb ?]).
    repeat match goal with
           | H : negb _ = false |- _ =>
               apply negb_false_iff, Nat.eqb_eq in H
           end.
    auto.
Qed.

Lemma X4_getEOP_reply_shape_witness :
  mexFunction (Cases.eop_reply Cases.row_reply) 1 Bench.prhs3
  = ([Call TTTAI; Call TAIUTC; Call GETEOP],
     inl "Error using the getEOP function."%string).
Proof.
  apply (X4_getEOP_reply_shape (Cases.eop_reply Cases.row_reply) 1
           Bench.prhs3 _ _ [Call TTTAI; Call TAIUTC] _ Cases.row_reply
           ltac:(vm_compute; reflexivity) eq_refl
           ltac:(vm_compute; reflexivity) eq_refl eq_refl eq_refl).
  cbn. intros (H & _). discriminate H.
Defined.

(** ** What the call reads of its arguments *)

(** Two argument lists that agree on what lines 137-248 read of the four
    optional arguments give the same parameters, the same bundle and,
    with the same batch, the same result. *)
Section Congruence.

Variable E : Externals.
Variables prhs prhs' : list mxArray.

Hypothesis Hlook : needs_lookup prhs = needs_lookup prhs'.
Hypothesis Hgiven : forall i, 3 <= i <= 6 -> given prhs i = given prhs' i.
Hypothesis Hscalar : forall i, i = 3 \/ i = 6 -> given prhs i = true ->
  getDoubleFromMatlab E (arg prhs i) = getDoubleFromMatlab E (arg prhs' i).
Hypothesis Hpair : forall i, i = 4 \/ i = 5 -> given prhs i = true ->
  checkRealDoubleArray E (arg prhs i) = checkRealDoubleArray E (arg prhs' i) /\
  is_pair (arg prhs i) = is_pair (arg prhs' i) /\
  nth 0 (mxGetData (arg prhs i)) 0%float
  = nth 0 (mxGetData (arg prhs' i)) 0%float /\
  nth 1 (mxGetData (arg prhs i)) 0%float
  = nth 1 (mxGetData (arg prhs' i)) 0%float.

Lemma override_deltaT_cong eop :
  override_deltaT E prhs eop = override_deltaT E prhs' eop.
Proof.
  unfold override_deltaT. rewrite <- (Hgiven 3) by lia.
  destruct (given prhs 3) eqn:Hg; [| reflexivity].
  now rewrite (Hscalar 3) by auto.
Qed.

Lemma override_LOD_cong eop :
  override_LOD E prhs eop = override_LOD E prhs' eop.
Proof.
  unfold override_LOD. rewrite <- (Hgiven 6) by lia.
  destruct (given prhs 6) eqn:Hg; [| reflexivity].
  now rewrite (Hscalar 6) by auto.
Qed.

Lemma override_xpyp_cong eop :
  override_xpyp E prhs eop = override_xpyp E prhs' eop.
Proof.
  unfold override_xpyp, check_real_double. rewrite <- (Hgiven 4) by lia.
  destruct (given prhs 4) eqn:Hg; [| reflexivity].
  destruct (Hpair 4) as (<- & <- & <- & <-); auto.
Qed.

Lemma override_dXdY_cong eop :
  override_dXdY E prhs eop = override_dXdY E prhs' eop.
Proof.
  unfold override_dXdY, check_real_double. rewrite <- (Hgiven 5) by lia.
  destruct (given prhs 5) eqn:Hg; [| reflexivity].
  destruct (Hpair 5) as (<- & <- & <- & <-); auto.
Qed.

Lemma resolve_cong TT1 TT2 :
  resolve E prhs TT1 TT2 = resolve E prhs' TT1 TT2.
Proof.
  unfold resolve, resolve_ut1, lookupEOP. rewrite <- Hlook.
  rewrite !bind_assoc. apply bind_ext. intros eop0.
  rewrite override_deltaT_cong. rewrite !bind_assoc.
  apply bind_ext. intros e1. rewrite !bind_assoc.
  apply bind_ext. intros []. rewrite !bind_ret_l. cbn [fst snd].
  rewrite override_xpyp_cong. apply bind_ext. intros e2.
  rewrite override_dXdY_cong. apply bind_ext. intros e3.
  now rewrite override_LOD_cong.
Qed.

Lemma bundle_of_cong nlhs :
  prologue E nlhs prhs = prologue E nlhs prhs' ->
  bundle_of E nlhs prhs = bundle_of E nlhs prhs'.
Proof.
  intros Hp. unfold bundle_of. rewrite <- Hp.
  apply bind_ext. intros TT. now rewrite resolve_cong.
Qed.

Lemma mexFunction_cong nlhs :
  prologue E nlhs prhs = prologue E nlhs prhs' ->
  arg prhs 0 = arg prhs' 0 ->
  mexFunction E nlhs prhs = mexFunction E nlhs prhs'.
Proof.
  intros Hp H0. unfold mexFunction. rewrite (bundle_of_cong nlhs Hp).
  apply bind_ext. intros B. unfold outputs. now rewrite H0.
Qed.

End Congruence.

Lemma arg_app_l (prhs : list mxArray) e i :
  i < length prhs -> arg (prhs ++ [e]) i = arg prhs i.
Proof. intros H. unfold arg. now apply app_nth1. Qed.

Lemma arg_app_r (prhs : list mxArray) e :
  arg (prhs ++ [e]) (length prhs) = e.
Proof. unfold arg. now rewrite app_nth2, Nat.sub_diag by lia. Qed.

Lemma given_lt prhs i : given prhs i = true -> i < length prhs.
Proof.
  unfold given. intros H. apply andb_prop in H as [H _].
  now apply Nat.ltb_lt.
Qed.

Lemma given_app_empty prhs e i :
  mxIsEmpty e = true -> given (prhs ++ [e]) i = given prhs i.
Proof.
  intros He. unfold given. rewrite length_app. cbn [length].
  destruct (Nat.lt_trichotomy i (length prhs)) as [Hlt | [-> | Hgt]].
  - rewrite arg_app_l by assumption.
    replace (i <? length prhs + 1) with true
      by (symmetry; apply Nat.ltb_lt; lia).
    now replace (i <? length prhs) with true
      by (symmetry; apply Nat.ltb_lt; lia).
  - rewrite arg_app_r, He, Nat.ltb_irrefl. apply andb_false_r.
  - replace (i <? length prhs + 1) with false
      by (symmetry; apply Nat.ltb_ge; lia).
    now replace (i <? length prhs) with false
      by (symmetry; apply Nat.ltb_ge; lia).
Qed.

(** An argument that is not given makes the look-up necessary. *)
Lemma not_given_needs_lookup prhs i :
  3 <= i <= 6 -> given prhs i = false -> needs_lookup prhs = true.
Proof.
  intros Hi Hg. unfold given in Hg. unfold needs_lookup.
  apply andb_false_iff in Hg as [Hg | Hg].
  - apply Nat.ltb_ge in Hg.
    replace (length prhs <=? 6) with true
      by (symmetry; apply Nat.leb_le; lia). reflexivity.
  - apply negb_false_iff in Hg.
    assert (Hc : i = 3 \/ i = 4 \/ i = 5 \/ i = 6) by lia.
    destruct Hc as [-> | [-> | [-> | ->]]]; rewrite Hg;
      rewrite ?orb_true_r; reflexivity.
Qed.

(** ** An empty argument is an omitted argument (lines 137, 201-248) *)

(** X5: passing an empty array for the next optional argument changes
    nothing: the call logs and returns what it does without it. *)
Theorem X5_empty_argument_is_omitted E nlhs prhs e :
  3 <= length prhs <= 6 ->
  mxIsEmpty e = true ->
  mexFunction E nlhs (prhs ++ [e]) = mexFunction E nlhs prhs.
Proof.
  intros Hn He. symmetry. apply mexFunction_cong.
  - assert (Hl : needs_lookup prhs = true).
    { unfold needs_lookup.
      now replace (length prhs <=? 6) with true
        by (symmetry; apply Nat.leb_le; lia). }
    rewrite Hl. symmetry.
    apply (not_given_needs_lookup _ (length prhs)); [lia |].
    rewrite given_app_empty by assumption.
    unfold given. now rewrite Nat.ltb_irrefl.
  - intros i _. now rewrite given_app_empty.
  - intros i _ Hg. now rewrite arg_app_l by now apply given_lt.
  - intros i _ Hg. now rewrite arg_app_l by now apply given_lt.
  - unfold prologue. rewrite length_app, !arg_app_l by lia. cbn [length].
    replace ((length prhs + 1 <? 3) || (7 <? length prhs + 1)) with false
      by (symmetry; apply orb_false_intro; apply Nat.ltb_ge; lia).
    now replace ((length prhs <? 3) || (7 <? length prhs)) with false
      by (symmetry; apply orb_false_intro; apply Nat.ltb_ge; lia).
  - now rewrite arg_app_l by lia.
Qed.

Lemma X5_empty_argument_is_omitted_witness :
  mexFunction (Bench.externals 0) 1
    ([Bench.x3; Bench.Jul1; Bench.Jul2; Bench.deltaTTUT1] ++ [Cases.none])
  = mexFunction (Bench.externals 0) 1
      [Bench.x3; Bench.Jul1; Bench.Jul2; Bench.deltaTTUT1].
Proof.
  apply (X5_empty_argument_is_omitted (Bench.externals 0) 1
           [Bench.x3; Bench.Jul1; Bench.Jul2; Bench.deltaTTUT1] Cases.none);
    [cbn; lia | reflexivity].
Defined.

(** ** Replacing one argument *)

Lemma given_insert_ne (prhs : list mxArray) i j v :
  i <> j -> given (<[i:=v]> prhs) j = given prhs j.
Proof.
  intros H. unfold given. now rewrite length_insert, arg_insert_ne.
Qed.

Lemma is_pair_not_empty a : is_pair a = true -> mxIsEmpty a = false.
Proof.
  unfold is_pair, mxIsEmpty. intros H.
  apply orb_prop in H as [H | H]; apply andb_prop in H as [HM HN];
    apply Nat.eqb_eq in HM, HN; now rewrite HM, HN.
Qed.

Lemma needs_lookup_insert_same_emptiness (prhs : list mxArray) i v :
  mxIsEmpty v = mxIsEmpty (arg prhs i) ->
  needs_lookup (<[i:=v]> prhs) = needs_lookup prhs.
Proof.
  intros He. unfold needs_lookup. rewrite length_insert.
  destruct (Nat.lt_ge_cases i (length prhs)) as [Hlt | Hge];
    [| now rewrite list_insert_ge].
  assert (Harg : forall j, mxIsEmpty (arg (<[i:=v]> prhs) j)
                           = mxIsEmpty (arg prhs j)).
  { intros j. destruct (Nat.eq_dec i j) as [<- | Hne].
    - now rewrite arg_insert_eq.
    - now rewrite arg_insert_ne. }
  now rewrite !Harg.
Qed.

(** ** Row or column (lines 216 and 234) *)

(** X7: the polar motion ([i] = 4) and the celestial pole offsets
    ([i] = 5) may be given as a column or as a row: replacing a 2x1 or 1x2
    argument by another 2x1 or 1x2 array with the same data, on which
    [checkRealDoubleArray] answers the same, changes nothing in what the
    call logs and returns. *)
Theorem X7_pair_as_row_or_column E nlhs prhs i a' :
  i = 4 \/ i = 5 ->
  is_pair (arg prhs i) = true -> is_pair a' = true ->
  mxGetData a' = mxGetData (arg prhs i) ->
  checkRealDoubleArray E a' = checkRealDoubleArray E (arg prhs i) ->
  mexFunction E nlhs (<[i:=a']> prhs) = mexFunction E nlhs prhs.
Proof.
  intros Hi Hp Hp' Hdata Hcheck.
  destruct (Nat.lt_ge_cases i (length prhs)) as [Hlt | Hge];
    [| now rewrite list_insert_ge].
  apply mexFunction_cong.
  - apply needs_lookup_insert_same_emptiness.
    now rewrite !is_pair_not_empty.
  - intros j _. unfold given. rewrite length_insert.
    destruct (Nat.eq_dec i j) as [<- | Hne].
    + now rewrite arg_insert_eq, !is_pair_not_empty.
    + now rewrite arg_insert_ne.
  - intros j Hj _. now rewrite arg_insert_ne by lia.
  - intros j Hj _. destruct (Nat.eq_dec i j) as [<- | Hne].
    + now rewrite arg_insert_eq, Hcheck, Hp, Hp', Hdata.
    + now rewrite arg_insert_ne.
  - unfold prologue. now rewrite length_insert, !arg_insert_ne by lia.
  - now rewrite arg_insert_ne by lia.
Qed.

Lemma X7_pair_as_row_or_column_witness :
  mexFunction (Bench.externals 0) 2 (<[4:=Cases.xpyp_row]> Bench.prhs7)
  = mexFunction (Bench.externals 0) 2 Bench.prhs7.
Proof.
  apply (X7_pair_as_row_or_column (Bench.externals 0) 2 Bench.prhs7 4
           Cases.xpyp_row); try reflexivity. now left.
Defined.

(** ** The bundle and the batch (lines 123-130, 137-303) *)

(** X10: the rotation bundle and the log of the call do not depend on the
    batch: replacing a valid batch by another valid batch, of any number
    of rows and vectors, leaves lines 115-303 with the same events and the
    same bundle, or the same error. *)
Theorem X10_bundle_independent_of_batch E nlhs prhs x' :
  checkRealDoubleArray E (arg prhs 0) = None ->
  checkRealDoubleArray E x' = None ->
  mxGetM (arg prhs 0) = 3 \/ mxGetM (arg prhs 0) = 6 ->
  mxGetM x' = 3 \/ mxGetM x' = 6 ->
  bundle_of E nlhs (<[0:=x']> prhs) = bundle_of E nlhs prhs.
Proof.
  intros Hc Hc' Hrow Hrow'.
  destruct (Nat.lt_ge_cases 0 (length prhs)) as [Hlt | Hge];
    [| now rewrite list_insert_ge].
  apply bundle_of_cong.
  - unfold needs_lookup. now rewrite length_insert, !arg_insert_ne by lia.
  - intros j Hj. now rewrite given_insert_ne by lia.
  - intros j Hj _. now rewrite arg_insert_ne by lia.
  - intros j Hj _. now rewrite arg_insert_ne by lia.
  - unfold prologue, check_real_double.
    rewrite length_insert, arg_insert_eq, !arg_insert_ne by lia.
    rewrite Hc, Hc'.
    replace (negb ((mxGetM x' =? 3) || (mxGetM x' =? 6))) with false
      by (destruct Hrow' as [-> | ->]; reflexivity).
    now replace (negb ((mxGetM (arg prhs 0) =? 3) || (mxGetM (arg prhs 0) =? 6)))
      with false by (destruct Hrow as [-> | ->]; reflexivity).
Qed.

Lemma X10_bundle_independent_of_batch_witness :
  bundle_of (Bench.externals 0) 2 (<[0:=Bench.x6]> Bench.prhs7)
  = bundle_of (Bench.externals 0) 2 Bench.prhs7.
Proof.
  apply (X10_bundle_independent_of_batch (Bench.externals 0) 2 Bench.prhs7
           Bench.x6); try reflexivity; [now left | now right].
Defined.

(** ** What a successful resolution of the parameters has done *)

Section Inversion.

Variable E : Externals.

Lemma override_deltaT_inv prhs eop0 l e :
  override_deltaT E prhs eop0 = (l, inr e) ->
  l = [] /\ xp e = xp eop0 /\ yp e = yp eop0 /\ dX e = dX eop0 /\
  dY e = dY eop0 /\ LOD e = LOD eop0 /\
  (if given prhs 3
   then getDoubleFromMatlab E (arg prhs 3) = inr (deltaT e)
   else deltaT e = deltaT eop0).
Proof.
  unfold override_deltaT, lift, bind, ret. destruct (given prhs 3).
  - destruct (getDoubleFromMatlab E (arg prhs 3)) as [msg | d];
      intros H; simplify_eq. now cbn.
  - intros H. simplify_eq. now cbn.
Qed.

Lemma override_LOD_inv prhs eop0 l e :
  override_LOD E prhs eop0 = (l, inr e) ->
  l = [] /\ xp e = xp eop0 /\ yp e = yp eop0 /\ dX e = dX eop0 /\
  dY e = dY eop0 /\ deltaT e = deltaT eop0 /\
  (if given prhs 6
   then getDoubleFromMatlab E (arg prhs 6) = inr (LOD e)
   else LOD e = LOD eop0).
Proof.
  unfold override_LOD, lift, bind, ret. destruct (given prhs 6).
  - destruct (getDoubleFromMatlab E (arg prhs 6)) as [msg | d];
      intros H; simplify_eq. now cbn.
  - intros H. simplify_eq. now cbn.
Qed.

Lemma override_xpyp_inv prhs eop0 l e :
  override_xpyp E prhs eop0 = (l, inr e) ->
  l = [] /\ dX e = dX eop0 /\ dY e = dY eop0 /\
  deltaT e = deltaT eop0 /\ LOD e = LOD eop0 /\
  (if given prhs 4
   then checkRealDoubleArray E (arg prhs 4) = None /\
        is_pair (arg prhs 4) = true /\
        xp e = nth 0 (mxGetData (arg prhs 4)) 0%float /\
        yp e = nth 1 (mxGetData (arg prhs 4)) 0%float
   else xp e = xp eop0 /\ yp e = yp eop0).
Proof.
  unfold override_xpyp, check_real_double, mexErrMsgTxt, bind, ret.
  destruct (given prhs 4).
  - destruct (checkRealDoubleArray E (arg prhs 4)) as [msg |];
      [discriminate |].
    destruct (is_pair (arg prhs 4)); intros H; simplify_eq. now cbn.
  - intros H. simplify_eq. now cbn.
Qed.

Lemma override_dXdY_inv prhs eop0 l e :
  override_dXdY E prhs eop0 = (l, inr e) ->
  l = [] /\ xp e = xp eop0 /\ yp e = yp eop0 /\
  deltaT e = deltaT eop0 /\ LOD e = LOD eop0 /\
  (if given prhs 5
   then checkRealDoubleArray E (arg prhs 5) = None /\
        is_pair (arg prhs 5) = true /\
        dX e = nth 0 (mxGetData (arg prhs 5)) 0%float /\
        dY e = nth 1 (mxGetData (arg prhs 5)) 0%float
   else dX e = dX eop0 /\ dY e = dY eop0).
Proof.
  unfold override_dXdY, check_real_double, mexErrMsgTxt, bind, ret.
  destruct (given prhs 5).
  - destruct (checkRealDoubleArray E (arg prhs 5)) as [msg |];
      [discriminate |].
    destruct (is_pair (arg prhs 5)); intros H; simplify_eq. now cbn.
  - intros H. simplify_eq. now cbn.
Qed.

(** Every group of parameters comes from the caller when given, and from
    the look-up (or the initial zero) otherwise; the UT1 date is computed
    with the TT-UT1 so chosen. *)
Lemma resolve_merge prhs TT1 TT2 l UT eop :
  resolve E prhs TT1 TT2 = (l, inr (UT, eop)) ->
  exists l0 eop0,
    lookupEOP E prhs TT1 TT2 = (l0, inr eop0) /\
    l = l0 ++ [Call TTUT1] /\
    UT = iauTtut1 E TT1 TT2 (deltaT eop) /\
    (if given prhs 3
     then getDoubleFromMatlab E (arg prhs 3) = inr (deltaT eop)
     else deltaT eop = deltaT eop0) /\
    (if given prhs 4
     then checkRealDoubleArray E (arg prhs 4) = None /\
          is_pair (arg prhs 4) = true /\
          xp eop = nth 0 (mxGetData (arg prhs 4)) 0%float /\
          yp eop = nth 1 (mxGetData (arg prhs 4)) 0%float
     else xp eop = xp eop0 /\ yp eop = yp eop0) /\
    (if given prhs 5
     then checkRealDoubleArray E (arg prhs 5) = None /\
          is_pair (arg prhs 5) = true /\
          dX eop = nth 0 (mxGetData (arg prhs 5)) 0%float /\
          dY eop = nth 1 (mxGetData (arg prhs 5)) 0%float
     else dX eop = dX eop0 /\ dY eop = dY eop0) /\
    (if given prhs 6
     then getDoubleFromMatlab E (arg prhs 6) = inr (LOD eop)
     else LOD eop = LOD eop0).
Proof.
  intros H. unfold resolve in H.
  apply bind_inv_inr in H as (lu & [UT' e1] & l' & Hu & H & ->).
  apply resolve_ut1_inv in Hu as (l0 & eop0 & Hl & Hd & HUT & ->).
  cbn [fst snd] in *.
  apply bind_inv_inr in H as (l2 & e2 & l'' & H2 & H & ->).
  apply bind_inv_inr in H as (l3 & e3 & l''' & H3 & H & ->).
  apply bind_inv_inr in H as (l4 & e4 & l5 & H4 & H & ->).
  injection H as <- <- <-.
  apply override_deltaT_inv in Hd as (_ & Hx1 & Hy1 & HX1 & HY1 & HL1 & Hd).
  apply override_xpyp_inv in H2 as (-> & HX2 & HY2 & Hd2 & HL2 & H2).
  apply override_dXdY_inv in H3 as (-> & Hx3 & Hy3 & Hd3 & HL3 & H3).
  apply override_LOD_inv in H4 as (-> & Hx4 & Hy4 & HX4 & HY4 & Hd4 & H4).
  exists l0, eop0. split; [exact Hl |].
  split; [now rewrite !app_nil_r |].
  split; [now rewrite HUT, Hd4, Hd3, Hd2 |].
  rewrite Hd4, Hd3, Hd2, Hx4, Hy4, Hx3, Hy3, HX4, HY4.
  split; [exact Hd |]. split.
  { destruct (given prhs 4); [exact H2 |].
    destruct H2 as [-> ->]. now split. }
  split.
  { destruct (given prhs 5); [exact H3 |].
    destruct H3 as [-> ->]. now rewrite HX2, HY2. }
  destruct (given prhs 6); [exact H4 |]. now rewrite H4, HL3, HL2.
Qed.

(** What a successful look-up has logged. *)
Lemma utc_of_tt_inv TT1 TT2 l utc :
  utc_of_tt E TT1 TT2 = (l, inr utc) ->
  l = [Call TTTAI; Call TAIUTC] \/
  l = [Call TTTAI; Call TAIUTC; Warn msg_dubious].
Proof.
  unfold utc_of_tt. destruct (iauTttai E TT1 TT2) as [s1 [tai1 tai2]].
  destruct (iauTaiutc E tai1 tai2) as [s2 utc'].
  destruct (negb (s1 =? 0)%Z); [discriminate |].
  destruct s2 as [| [p | p |] | [p | p |]]; cbn; intros H; simplify_eq; auto.
Qed.

Lemma eop_of_utc_inv utc l eop :
  eop_of_utc E utc = (l, inr eop) -> l = [Call GETEOP].
Proof.
  unfold eop_of_utc, check_real_double, failwhen, lift, called,
    mexErrMsgTxt, bind, ret.
  intros H. repeat case_match; simplify_eq. reflexivity.
Qed.

Lemma lookupEOP_inv prhs TT1 TT2 l eop :
  lookupEOP E prhs TT1 TT2 = (l, inr eop) ->
  if needs_lookup prhs
  then l = [Call TTTAI; Call TAIUTC; Call GETEOP] \/
       l = [Call TTTAI; Call TAIUTC; Warn msg_dubious; Call GETEOP]
  else l = [] /\ eop = eop_init.
Proof.
  unfold lookupEOP. destruct (needs_lookup prhs).
  - intros H. apply bind_inv_inr in H as (l1 & utc & l2 & Hu & He & ->).
    apply eop_of_utc_inv in He as ->.
    apply utc_of_tt_inv in Hu as [-> | ->]; auto.
  - intros H. now injection H as <- <-.
Qed.

End Inversion.

(** ** The bundle of a successful call (lines 137-303) *)

(** X6: in a call that builds the rotation bundle, each of the four groups
    of parameters is the caller's when the argument is given and not
    empty, and the one of the look-up otherwise; the UT1 date is computed
    from the TT-UT1 so chosen, the celestial pole offsets are added to the
    coordinates of the pole, and GCRS2ITRS and GCRS2TIRS are built from the
    same GCRS-to-CIRS matrix and Earth rotation angle, the first with the
    polar-motion matrix and the second with the identity. *)
Theorem X6_bundle_from_merged_parameters E nlhs prhs l B :
  bundle_of E nlhs prhs = (l, inr B) ->
  exists TT1 TT2 l0 eop0 eop,
    prologue E nlhs prhs = ([], inr (TT1, TT2)) /\
    lookupEOP E prhs TT1 TT2 = (l0, inr eop0) /\
    (if given prhs 3
     then getDoubleFromMatlab E (arg prhs 3) = inr (deltaT eop)
     else deltaT eop = deltaT eop0) /\
    (if given prhs 4
     then xp eop = nth 0 (mxGetData (arg prhs 4)) 0%float /\
          yp eop = nth 1 (mxGetData (arg prhs 4)) 0%float
     else xp eop = xp eop0 /\ yp eop = yp eop0) /\
    (if given prhs 5
     then dX eop = nth 0 (mxGetData (arg prhs 5)) 0%float /\
          dY eop = nth 1 (mxGetData (arg prhs 5)) 0%float
     else dX eop = dX eop0 /\ dY eop = dY eop0) /\
    (if given prhs 6
     then getDoubleFromMatlab E (arg prhs 6) = inr (LOD eop)
     else LOD eop = LOD eop0) /\
    let UT := iauTtut1 E TT1 TT2 (deltaT eop) in
    let rc2i :=
      let '(x, y, s) := iauXys06a E TT1 TT2 in
      iauC2ixys E (x + dX eop)%float (y + dY eop)%float s in
    let era := iauEra00 E (fst UT) (snd UT) in
    rpom B = iauPom00 E (xp eop) (yp eop) (iauSp00 E TT1 TT2) /\
    GCRS2ITRS B = iauC2tcio E rc2i era (rpom B) /\
    GCRS2TIRS B = iauC2tcio E rc2i era rident.
Proof.
  intros H.
  apply bundle_of_inv in H
    as (TT1 & TT2 & l1 & UT & eop & l2 & Hp & Hr & Hc & _).
  apply resolve_merge in Hr
    as (l0 & eop0 & Hl & _ & -> & H3 & H4 & H5 & H6).
  apply compose_inv in Hc as (omega & _ & _ & _ & Hpom & HT & HI).
  exists TT1, TT2, l0, eop0, eop.
  split; [exact Hp |]. split; [exact Hl |]. split; [exact H3 |].
  split; [destruct (given prhs 4); tauto |].
  split; [destruct (given prhs 5); tauto |].
  split; [exact H6 |]. cbn zeta.
  split; [exact Hpom |]. split; [now rewrite Hpom | exact HT].
Qed.

Lemma X6_bundle_from_merged_parameters_witness :
  exists B eop,
    outcome (bundle_of (Bench.externals 0) 1
               [Bench.x3; Bench.Jul1; Bench.Jul2; Cases.none;
                Cases.xpyp_other]) = inr B /\
    xp eop = 3%float /\ yp eop = 5%float /\
    dX eop = 0.125%float /\ deltaT eop = 64%float /\
    rpom B = iauPom00 (Bench.externals 0) (xp eop) (yp eop) 0%float.
Proof.
  destruct (X6_bundle_from_merged_parameters (Bench.externals 0) 1
              [Bench.x3; Bench.Jul1; Bench.Jul2; Cases.none;
               Cases.xpyp_other] _ _ ltac:(vm_compute; reflexivity))
    as (TT1 & TT2 & l0 & eop0 & eop & Hp & Hl & H3 & H4 & H5 & _ & HB).
  vm_compute in Hp. injection Hp as <- <-.
  vm_compute in Hl. injection Hl as <- <-.
  cbn in H3, H4, H5. destruct H4 as [Hx Hy]. destruct H5 as [HX _].
  destruct HB as (Hpom & _).
  eexists _, eop. split; [vm_compute; reflexivity |].
  split; [exact Hx |]. split; [exact Hy |]. split; [exact HX |].
  split; [exact H3 |].
  etransitivity; [| exact Hpom]. vm_compute. reflexivity.
Defined.

(** ** The log of a successful call (lines 137-303) *)

(** X9: a call that returns has evaluated each model once, whatever the
    number of vectors: after the conversions and the look-up, if they
    were needed, it has computed the UT1 date, the coordinates of the
    pole, the GCRS-to-CIRS matrix, the Earth rotation angle, the TIO
    locator, the polar-motion matrix and the two celestial-to-terrestrial
    matrices, and read the rotation rate; nothing else. *)
Theorem X9_models_evaluated_once E nlhs prhs log plhs :
  mexFunction E nlhs prhs = (log, inr plhs) ->
  exists pre,
    log = pre ++ [Call TTUT1; Call XYS06A; Call C2IXYS; Call ERA00;
                  Call SP00; Call POM00; Call C2TCIO; Call C2TCIO;
                  Call CLASSCONST] /\
    if needs_lookup prhs
    then pre = [Call TTTAI; Call TAIUTC; Call GETEOP] \/
         pre = [Call TTTAI; Call TAIUTC; Warn "Dubious Date entered.";
                Call GETEOP]
    else pre = [].
Proof.
  intros H. apply mexFunction_inv in H as (B & HB & _).
  apply bundle_of_inv in HB
    as (TT1 & TT2 & l1 & UT & eop & l2 & Hp & Hr & Hc & ->).
  apply resolve_merge in Hr as (l0 & eop0 & Hl & -> & _).
  apply compose_inv in Hc as (omega & _ & -> & _).
  exists l0. split; [now rewrite <- app_assoc |].
  apply lookupEOP_inv in Hl. destruct (needs_lookup prhs); tauto.
Qed.

Lemma X9_models_evaluated_once_witness :
  exists pre,
    events (mexFunction (Bench.externals 1) 1 Bench.prhs3_vel)
    = pre ++ [Call TTUT1; Call XYS06A; Call C2IXYS; Call ERA00;
              Call SP00; Call POM00; Call C2TCIO; Call C2TCIO;
              Call CLASSCONST] /\
    (pre = [Call TTTAI; Call TAIUTC; Call GETEOP] \/
     pre = [Call TTTAI; Call TAIUTC; Warn "Dubious Date entered.";
            Call GETEOP]).
Proof.
  destruct (X9_models_evaluated_once (Bench.externals 1) 1 Bench.prhs3_vel
              _ _ ltac:(vm_compute; reflexivity)) as (pre & Hlog & Hpre).
  exists pre. split; [| exact Hpre].
  etransitivity; [| exact Hlog]. vm_compute. reflexivity.
Defined.

(** ** The polar motion and the TIRS (lines 277-295) *)

(** X12: the polar motion reaches the position only through GCRS2ITRS
    and the velocity only through the last rotation: two calls that
    differ in the polar-motion argument alone (given, empty or absent)
    and both build their bundle have the same GCRS2TIRS and the same
    Omega. *)
Theorem X12_polar_motion_leaves_TIRS E nlhs prhs a' l B l' B' :
  bundle_of E nlhs prhs = (l, inr B) ->
  bundle_of E nlhs (<[4:=a']> prhs) = (l', inr B') ->
  GCRS2TIRS B' = GCRS2TIRS B /\ Omega B' = Omega B.
Proof.
  intros H H'.
  apply bundle_of_inv in H
    as (TT1 & TT2 & l1 & UT & eop & l2 & Hp & Hr & Hc & _).
  apply bundle_of_inv in H'
    as (TT1' & TT2' & l1' & UT' & eop' & l2' & Hp' & Hr' & Hc' & _).
  assert (HTT : (TT1', TT2') = (TT1, TT2)).
  { unfold prologue in Hp'.
    rewrite length_insert, !arg_insert_ne in Hp' by lia.
    fold (prologue E nlhs prhs) in Hp'. congruence. }
  injection HTT as -> ->.
  apply resolve_merge in Hr
    as (l0 & eop0 & Hl & _ & -> & H3 & _ & H5 & H6).
  apply resolve_merge in Hr'
    as (l0' & eop0' & Hl' & _ & -> & H3' & _ & H5' & H6').
  rewrite !given_insert_ne, !arg_insert_ne in * by lia.
  assert (Hsame : forall i, 3 <= i <= 6 -> i <> 4 -> given prhs i = false ->
            eop0' = eop0).
  { intros i Hi Hne Hg.
    assert (Hn := not_given_needs_lookup prhs i Hi Hg).
    assert (Hn' : needs_lookup (<[4:=a']> prhs) = true).
    { apply (not_given_needs_lookup _ i Hi).
      now rewrite given_insert_ne by lia. }
    unfold lookupEOP in Hl, Hl'. rewrite Hn in Hl. rewrite Hn' in Hl'.
    congruence. }
  assert (Hd : deltaT eop' = deltaT eop).
  { destruct (given prhs 3) eqn:Hg; [congruence |].
    rewrite H3, H3'. f_equal. apply (Hsame 3); [lia | lia | exact Hg]. }
  assert (HXY : dX eop' = dX eop /\ dY eop' = dY eop).
  { destruct (given prhs 5) eqn:Hg.
    - destruct H5 as (_ & _ & -> & ->). destruct H5' as (_ & _ & -> & ->).
      now split.
    - destruct H5 as [-> ->]. destruct H5' as [-> ->].
      rewrite (Hsame 5); [now split | lia | lia | exact Hg]. }
  assert (HL : LOD eop' = LOD eop).
  { destruct (given prhs 6) eqn:Hg; [congruence |].
    rewrite H6, H6'. f_equal. apply (Hsame 6); [lia | lia | exact Hg]. }
  destruct HXY as [HX HY].
  apply compose_inv in Hc as (omega & Hw & _ & HO & _ & HT & _).
  apply compose_inv in Hc' as (omega' & Hw' & _ & HO' & _ & HT' & _).
  rewrite HT, HT', HO, HO', Hd, HX, HY, HL. split; [reflexivity |].
  congruence.
Qed.

Lemma X12_polar_motion_leaves_TIRS_witness :
  exists B B',
    outcome (bundle_of (Bench.externals 0) 1 Bench.prhs7) = inr B /\
    outcome (bundle_of (Bench.externals 0) 1
               (<[4:=Cases.xpyp_other]> Bench.prhs7)) = inr B' /\
    rpom B' <> rpom B /\
    GCRS2TIRS B' = GCRS2TIRS B /\ Omega B' = Omega B.
Proof.
  eexists _, _. split; [vm_compute; reflexivity |].
  split; [vm_compute; reflexivity |].
  split; [vm_compute; discriminate |].
  apply (X12_polar_motion_leaves_TIRS (Bench.externals 0) 1 Bench.prhs7
           Cases.xpyp_other _ _ _ _
           ltac:(vm_compute; reflexivity) ltac:(vm_compute; reflexivity)).
Defined.

(** ** The outputs (lines 306-360) *)

Lemma rotMat_data R :
  mxGetData (rotMat R)
  = [mat_get R 0 0; mat_get R 1 0; mat_get R 2 0;
     mat_get R 0 1; mat_get R 1 1; mat_get R 2 1;
     mat_get R 0 2; mat_get R 1 2; mat_get R 2 2].
Proof. destruct R as [[[[a b] c] [[d e] f]] [[g h] k]]. reflexivity. Qed.

Lemma rotMat_entry R i j :
  i < 3 -> j < 3 -> nth (i + 3 * j) (mxGetData (rotMat R)) 0%float
                    = mat_get R i j.
Proof.
  intros Hi Hj. rewrite rotMat_data.
  destruct i as [| [| [| i]]]; try lia;
    destruct j as [| [| [| j]]]; try lia; reflexivity.
Qed.

(** X8: a call that returns gives one output when at most one is asked
    for (also when none is) and two otherwise.  The second is a 3x3 real
    array holding, in column-major order, the entries of the matrix
    GCRS2ITRS of the bundle, which is the matrix applied to the position
    of every vector of the batch. *)
Theorem X8_rotation_matrix_output E nlhs prhs l plhs :
  mexFunction E nlhs prhs = (l, inr plhs) ->
  exists B,
    bundle_of E nlhs prhs = (l, inr B) /\
    length plhs = (if 1 <? nlhs then 2 else 1) /\
    (1 < nlhs ->
     let R := arg plhs 1 in
     mxIsRealDouble R = true /\ mxGetM R = 3 /\ mxGetN R = 3 /\ mx_wf R /\
     forall i j, i < 3 -> j < 3 ->
       nth (i + 3 * j) (mxGetData R) 0%float = mat_get (GCRS2ITRS B) i j) /\
    (forall k, k < mxGetN (arg prhs 0) ->
       let numRow := mxGetM (arg prhs 0) in
       load3 (mxGetData (arg plhs 0)) (numRow * k)
       = iauRxp E (GCRS2ITRS B) (load3 (mxGetData (arg prhs 0)) (numRow * k))).
Proof.
  intros H. apply mexFunction_inv in H as (B & HB & ->).
  exists B. split; [exact HB |]. split.
  { unfold outputs. now destruct (1 <? nlhs). }
  split.
  - intros Hn. cbn zeta. rewrite arg_outputs_1 by assumption.
    split; [reflexivity |]. split; [reflexivity |]. split; [reflexivity |].
    split; [unfold mx_wf; now rewrite rotMat_data |].
    intros i j. apply rotMat_entry.
  - intros k Hk. cbn zeta. rewrite arg_outputs_0.
    destruct (transform_spec E B (mxGetData (arg prhs 0))
                (mxGetM (arg prhs 0)) (mxGetN (arg prhs 0))
                (bundle_of_rows _ _ _ _ _ HB)) as (_ & _ & _ & Hvec).
    now destruct (Hvec k Hk) as [-> _].
Qed.

Lemma X8_rotation_matrix_output_witness :
  exists plhs,
    outcome (mexFunction (Bench.externals 0) 2 Bench.prhs7) = inr plhs /\
    length plhs = 2 /\
    nth (1 + 3 * 2) (mxGetData (arg plhs 1)) 0%float = (-0.25)%float.
Proof.
  destruct (X8_rotation_matrix_output (Bench.externals 0) 2 Bench.prhs7 _ _
              ltac:(vm_compute; reflexivity))
    as (B & HB & Hlen & Hrot & _).
  destruct (Hrot ltac:(lia)) as (_ & _ & _ & _ & Hentry).
  eexists. split; [vm_compute; reflexivity |].
  split; [exact Hlen |].
  etransitivity; [exact (Hentry 1 2 ltac:(lia) ltac:(lia)) |].
  vm_compute in HB. injection HB as <-. vm_compute. reflexivity.
Defined.

(** X11: a batch without vectors is accepted: the call evaluates the
    models as for any batch and returns an array with the rows of the
    batch, no column and no data. *)
Theorem X11_empty_batch E nlhs prhs l B :
  bundle_of E nlhs prhs = (l, inr B) ->
  mxGetN (arg prhs 0) = 0 ->
  exists plhs,
    mexFunction E nlhs prhs = (l, inr plhs) /\
    arg plhs 0 = MxArray true (mxGetM (arg prhs 0)) 0 [].
Proof.
  intros HB HN. exists (outputs E nlhs prhs B).
  split; [now apply mexFunction_inr |].
  rewrite arg_outputs_0, HN. unfold transform. cbn [seq fold_left].
  unfold mxCreateDoubleMatrix. cbn [mxGetData]. now rewrite Nat.mul_0_r.
Qed.

Lemma X11_empty_batch_witness :
  exists plhs,
    mexFunction (Bench.externals 0) 1 [Cases.x0; Bench.Jul1; Bench.Jul2]
    = ([Call TTTAI; Call TAIUTC; Call GETEOP; Call TTUT1] ++ compose_events,
       inr plhs) /\
    arg plhs 0 = MxArray true 3 0 [].
Proof.
  apply (X11_empty_batch (Bench.externals 0) 1
           [Cases.x0; Bench.Jul1; Bench.Jul2] _ _
           ltac:(vm_compute; reflexivity) eq_refl).
Defined.

(** ** The batch and the date (lines 123-134) *)

(** X13: with valid counts of arguments, a batch that
    [checkRealDoubleArray] refuses ends the call with the message of that
    check, whatever its row count; with a valid batch, a date part that
    [getDoubleFromMatlab] refuses ends the call with the message of that
    helper, the first part before the second.  Nothing has been evaluated
    when these errors are raised. *)
Theorem X13_batch_and_date_checked_first E nlhs prhs :
  3 <= length prhs <= 7 -> nlhs <= 2 ->
  (forall msg, checkRealDoubleArray E (arg prhs 0) = Some msg ->
     mexFunction E nlhs prhs = ([], inl msg)) /\
  (checkRealDoubleArray E (arg prhs 0) = None ->
   mxGetM (arg prhs 0) = 3 \/ mxGetM (arg prhs 0) = 6 ->
   (forall msg, getDoubleFromMatlab E (arg prhs 1) = inl msg ->
      mexFunction E nlhs prhs = ([], inl msg)) /\
   (forall TT1 msg, getDoubleFromMatlab E (arg prhs 1) = inr TT1 ->
      getDoubleFromMatlab E (arg prhs 2) = inl msg ->
      mexFunction E nlhs prhs = ([], inl msg))).
Proof.
  intros Hn Hl.
  assert (Hcount : (length prhs <? 3) || (7 <? length prhs) = false)
    by (apply orb_false_intro; apply Nat.ltb_ge; lia).
  assert (Hout : (2 <? nlhs) = false) by (apply Nat.ltb_ge; lia).
  split.
  - intros msg Hc. apply mexFunction_inl.
    unfold bundle_of, prologue, check_real_double.
    now rewrite Hcount, Hout, Hc.
  - intros Hc Hrow.
    assert (Hdim : negb ((mxGetM (arg prhs 0) =? 3)
                         || (mxGetM (arg prhs 0) =? 6)) = false)
      by (destruct Hrow as [-> | ->]; reflexivity).
    split.
    + intros msg H1. apply mexFunction_inl.
      unfold bundle_of, prologue, check_real_double.
      now rewrite Hcount, Hout, Hc, Hdim, H1.
    + intros TT1 msg H1 H2. apply mexFunction_inl.
      unfold bundle_of, prologue, check_real_double.
      now rewrite Hcount, Hout, Hc, Hdim, H1, H2.
Qed.

Lemma X13_batch_and_date_checked_first_witness :
  mexFunction (Bench.externals 0) 1 [Bench.x3; Bench.three; Bench.Jul2]
  = ([], inl "A scalar value was expected."%string).
Proof.
  destruct (X13_batch_and_date_checked_first (Bench.externals 0) 1
              [Bench.x3; Bench.three; Bench.Jul2]
              ltac:(cbn; lia) ltac:(lia)) as [_ Hdate].
  destruct (Hdate eq_refl ltac:(now left)) as [H1 _].
  apply H1. reflexivity.
Defined.

(** ** Positions, velocities and the length of day *)

(** The matrix GCRS2ITRS of two calls that differ in the LOD argument
    alone. *)
Lemma GCRS2ITRS_insert6 E nlhs prhs lod' l B l' B' :
  bundle_of E nlhs prhs = (l, inr B) ->
  bundle_of E nlhs (<[6:=lod']> prhs) = (l', inr B') ->
  GCRS2ITRS B' = GCRS2ITRS B.
Proof.
  intros H H'.
  apply bundle_of_inv in H
    as (TT1 & TT2 & l1 & UT & eop & l2 & Hp & Hr & Hc & _).
  apply bundle_of_inv in H'
    as (TT1' & TT2' & l1' & UT' & eop' & l2' & Hp' & Hr' & Hc' & _).
  rewrite prologue_insert6 in Hp'.
  assert (HTT : (TT1', TT2') = (TT1, TT2)) by congruence.
  injection HTT as -> ->.
  apply resolve_merge in Hr
    as (l0 & eop0 & Hl & _ & -> & H3 & H4 & H5 & _).
  apply resolve_merge in Hr'
    as (l0' & eop0' & Hl' & _ & -> & H3' & H4' & H5' & _).
  rewrite !given_insert_ne, !arg_insert_ne in * by lia.
  assert (Hsame : forall i, 3 <= i <= 5 -> given prhs i = false ->
            eop0' = eop0).
  { intros i Hi Hg.
    assert (Hn := not_given_needs_lookup prhs i ltac:(lia) Hg).
    assert (Hn' : needs_lookup (<[6:=lod']> prhs) = true).
    { apply (not_given_needs_lookup _ i ltac:(lia)).
      now rewrite given_insert_ne by lia. }
    unfold lookupEOP in Hl, Hl'. rewrite Hn in Hl. rewrite Hn' in Hl'.
    congruence. }
  assert (Hd : deltaT eop' = deltaT eop).
  { destruct (given prhs 3) eqn:Hg; [congruence |].
    rewrite H3, H3'. f_equal. apply (Hsame 3); [lia | exact Hg]. }
  assert (Hxy : xp eop' = xp eop /\ yp eop' = yp eop).
  { destruct (given prhs 4) eqn:Hg.
    - destruct H4 as (_ & _ & -> & ->). destruct H4' as (_ & _ & -> & ->).
      now split.
    - destruct H4 as [-> ->]. destruct H4' as [-> ->].
      rewrite (Hsame 4); [now split | lia | exact Hg]. }
  assert (HXY : dX eop' = dX eop /\ dY eop' = dY eop).
  { destruct (given prhs 5) eqn:Hg.
    - destruct H5 as (_ & _ & -> & ->). destruct H5' as (_ & _ & -> & ->).
      now split.
    - destruct H5 as [-> ->]. destruct H5' as [-> ->].
      rewrite (Hsame 5); [now split | lia | exact Hg]. }
  destruct Hxy as [Hx Hy]. destruct HXY as [HX HY].
  apply compose_inv in Hc as (omega & _ & _ & _ & _ & _ & HI).
  apply compose_inv in Hc' as (omega' & _ & _ & _ & _ & _ & HI').
  now rewrite HI, HI', Hd, Hx, Hy, HX, HY.
Qed.

(** X14: whatever the number of rows, the LOD argument (given, empty or
    absent) changes neither the positions nor the rotation matrix that a
    call returns: in two calls that differ in that argument alone and both
    return, the output positions are equal vector by vector and so are
    the second outputs. *)
Theorem X14_LOD_leaves_positions E nlhs prhs lod' l plhs l' plhs' :
  mexFunction E nlhs prhs = (l, inr plhs) ->
  mexFunction E nlhs (<[6:=lod']> prhs) = (l', inr plhs') ->
  (forall k, k < mxGetN (arg prhs 0) ->
     let numRow := mxGetM (arg prhs 0) in
     load3 (mxGetData (arg plhs' 0)) (numRow * k)
     = load3 (mxGetData (arg plhs 0)) (numRow * k)) /\
  (1 < nlhs -> arg plhs' 1 = arg plhs 1).
Proof.
  intros H H'.
  apply mexFunction_inv in H as (B & HB & ->).
  apply mexFunction_inv in H' as (B' & HB' & ->).
  pose proof (GCRS2ITRS_insert6 E nlhs prhs lod' l B l' B' HB HB') as HI.
  split.
  - intros k Hk. cbn zeta. rewrite !arg_outputs_0, !arg_insert_ne by lia.
    pose proof (bundle_of_rows _ _ _ _ _ HB) as Hrow.
    destruct (transform_spec E B (mxGetData (arg prhs 0))
                (mxGetM (arg prhs 0)) (mxGetN (arg prhs 0)) Hrow)
      as (_ & _ & _ & Hvec).
    destruct (transform_spec E B' (mxGetData (arg prhs 0))
                (mxGetM (arg prhs 0)) (mxGetN (arg prhs 0)) Hrow)
      as (_ & _ & _ & Hvec').
    destruct (Hvec k Hk) as [-> _]. destruct (Hvec' k Hk) as [-> _].
    unfold itrs_position. now rewrite HI.
  - intros Hn. now rewrite !arg_outputs_1, HI by assumption.
Qed.

Lemma X14_LOD_leaves_positions_witness :
  exists plhs plhs',
    outcome (mexFunction (Bench.externals 0) 2 Bench.prhs7_vel_lod0)
    = inr plhs /\
    outcome (mexFunction (Bench.externals 0) 2
               (<[6:=Bench.LOD1]> Bench.prhs7_vel_lod0)) = inr plhs' /\
    plhs' <> plhs /\
    load3 (mxGetData (arg plhs' 0)) 6 = load3 (mxGetData (arg plhs 0)) 6 /\
    arg plhs' 1 = arg plhs 1.
Proof.
  eexists _, _. split; [vm_compute; reflexivity |].
  split; [vm_compute; reflexivity |].
  split; [vm_compute; discriminate |].
  destruct (X14_LOD_leaves_positions (Bench.externals 0) 2
              Bench.prhs7_vel_lod0 Bench.LOD1 _ _ _ _
              ltac:(vm_compute; reflexivity) ltac:(vm_compute; reflexivity))
    as [Hpos Hrot].
  split; [exact (Hpos 1 ltac:(cbn; lia)) | exact (Hrot ltac:(lia))].
Defined.

(** X15: the velocities of a batch do not change the positions that a
    call returns: when a 3-row batch holds the positions of a 6-row batch,
    vector by vector, the two calls that differ in the batch alone return
    the same position for every vector. *)
Theorem X15_positions_without_velocities E nlhs prhs x3 l plhs l' plhs' :
  mexFunction E nlhs prhs = (l, inr plhs) ->
  mexFunction E nlhs (<[0:=x3]> prhs) = (l', inr plhs') ->
  mxGetM (arg prhs 0) = 6 -> mxGetM x3 = 3 ->
  mxGetN x3 = mxGetN (arg prhs 0) ->
  (forall k, k < mxGetN x3 ->
     load3 (mxGetData x3) (3 * k) = load3 (mxGetData (arg prhs 0)) (6 * k)) ->
  l' = l /\
  forall k, k < mxGetN x3 ->
    load3 (mxGetData (arg plhs' 0)) (3 * k)
    = load3 (mxGetData (arg plhs 0)) (6 * k).
Proof.
  intros H H' H6 H3 HN Hpos.
  apply mexFunction_inv in H as (B & HB & ->).
  apply mexFunction_inv in H' as (B' & HB' & ->).
  assert (Hlen : 0 < length prhs).
  { apply bundle_of_inv in HB as (? & ? & ? & ? & ? & ? & Hp & _).
    apply prologue_inv in Hp. lia. }
  assert (Heq : bundle_of E nlhs (<[0:=x3]> prhs) = bundle_of E nlhs prhs).
  { pose proof HB as HB0. pose proof HB' as HB0'.
    apply bundle_of_inv in HB0 as (? & ? & ? & ? & ? & ? & Hp & _).
    apply bundle_of_inv in HB0' as (? & ? & ? & ? & ? & ? & Hp' & _).
    apply prologue_inv in Hp as (_ & _ & _ & Hc & Hrow & _).
    apply prologue_inv in Hp' as (_ & _ & _ & Hc' & Hrow' & _).
    rewrite arg_insert_eq in Hc', Hrow' by assumption.
    apply bundle_of_cong.
    - unfold needs_lookup. now rewrite length_insert, !arg_insert_ne by lia.
    - intros j Hj. now rewrite given_insert_ne by lia.
    - intros j Hj _. now rewrite arg_insert_ne by lia.
    - intros j Hj _. now rewrite arg_insert_ne by lia.
    - unfold prologue, check_real_double.
      rewrite length_insert, arg_insert_eq, !arg_insert_ne by lia.
      rewrite Hc, Hc', H6, H3. reflexivity. }
  rewrite Heq, HB in HB'. injection HB' as <- <-.
  split; [reflexivity |].
  intros k Hk. rewrite !arg_outputs_0, arg_insert_eq, H3, H6, HN by assumption.
  destruct (transform_spec E B (mxGetData x3) 3 (mxGetN (arg prhs 0)))
    as (_ & _ & _ & Hvec3); [now left |].
  destruct (transform_spec E B (mxGetData (arg prhs 0)) 6
              (mxGetN (arg prhs 0))) as (_ & _ & _ & Hvec6); [now right |].
  rewrite HN in Hk.
  destruct (Hvec3 k Hk) as [-> _]. destruct (Hvec6 k Hk) as [-> _].
  unfold itrs_position. now rewrite Hpos by now rewrite HN.
Qed.

Lemma X15_positions_without_velocities_witness :
  exists plhs plhs',
    outcome (mexFunction (Bench.externals 0) 1 Bench.prhs3_vel) = inr plhs /\
    outcome (mexFunction (Bench.externals 0) 1
               (<[0:=Cases.x3_of_x6]> Bench.prhs3_vel)) = inr plhs' /\
    load3 (mxGetData (arg plhs' 0)) 3 = load3 (mxGetData (arg plhs 0)) 6.
Proof.
  eexists _, _. split; [vm_compute; reflexivity |].
  split; [vm_compute; reflexivity |].
  destruct (X15_positions_without_velocities (Bench.externals 0) 1
              Bench.prhs3_vel Cases.x3_of_x6 _ _ _ _
              ltac:(vm_compute; reflexivity) ltac:(vm_compute; reflexivity)
              eq_refl eq_refl eq_refl) as [_ Hpos].
  - intros k Hk. cbn in Hk.
    destruct k as [| [| k]]; [reflexivity | reflexivity | lia].
  - exact (Hpos 1 ltac:(cbn; lia)).
Defined.
